(** * hands-chatbot: the chat backend (main.py) and its agent client (init_azure.py)

    A shallow embedding of the two Python modules and the properties of the
    idle sweep, the run-wait loop and the HTTP handlers.

    Conventions of the embedding.
    - Python values that travel through the handlers (JSON bodies, dict
      literals, rows of the store) are terms of [value]; a dict keeps its keys
      in insertion order, as Python does.
    - [time.time()] returns a float; timestamps are rationals here and the
      rounding of float subtraction is not modelled.
    - Everything the service calls that lives outside the two modules (the
      agents SDK, util.py, cal_com_methods.py, the wall clock) is a field of
      the class [Externals]: nothing is assumed about what it answers.
    - The store (supabase) is the list of rows inserted so far, each with the
      table it went to; inserts and selects are assumed to succeed, and so
      are the calls to the agent platform.
    - A handler is a computation in the monad [M]: it threads the [World],
      may raise, and may be [Pending] when a loop that awaits the platform
      has not finished within the given number of iterations.
    - Handlers are followed one at a time: what other tasks do while a
      handler is suspended in [asyncio.sleep] is not modelled. *)

From Stdlib Require Import List String Ascii Bool Arith ZArith QArith Lia.
From Stdlib Require Finite.
Import ListNotations.

Set Warnings "-register-all".

Open Scope string_scope.
Open Scope list_scope.

(** ** Python values *)

Inductive value : Type :=
| VNone
| VBool (b : bool)
| VInt (z : Z)
| VStr (s : string)
| VList (l : list value)
| VDict (d : list (string * value)).

(** [d.get(k)] on an insertion-ordered dict. *)
Fixpoint dict_get {A : Type} (k : string) (d : list (string * A)) : option A :=
  match d with
  | [] => None
  | (k', v) :: rest => if String.eqb k' k then Some v else dict_get k rest
  end.

(** [d[k] = v]: an existing key keeps its position, a new key goes last. *)
Fixpoint dict_set {A : Type} (k : string) (v : A) (d : list (string * A))
  : list (string * A) :=
  match d with
  | [] => [(k, v)]
  | (k', v') :: rest =>
      if String.eqb k' k then (k', v) :: rest else (k', v') :: dict_set k v rest
  end.

(** [d.pop(k, None)]: the key goes if it is there, nothing happens otherwise. *)
Fixpoint dict_pop {A : Type} (k : string) (d : list (string * A))
  : list (string * A) :=
  match d with
  | [] => []
  | (k', v') :: rest =>
      if String.eqb k' k then rest else (k', v') :: dict_pop k rest
  end.

Definition dict_keys {A : Type} (d : list (string * A)) : list string :=
  map fst d.

(** Popping a list of keys one after the other. *)
Definition pop_all {A : Type} (ks : list string) (d : list (string * A))
  : list (string * A) :=
  fold_left (fun d k => dict_pop k d) ks d.

(** Truth value of a Python object, as [if msg:] tests it. *)
Definition truthy (v : value) : bool :=
  match v with
  | VNone => false
  | VBool b => b
  | VInt z => negb (Z.eqb z 0)
  | VStr s => negb (String.eqb s "")
  | VList l => match l with [] => false | _ => true end
  | VDict d => match d with [] => false | _ => true end
  end.

(** Python's [==]: booleans compare as the integers 0 and 1, lists compare
    element by element, dicts compare as maps whatever their key order. *)
Fixpoint py_eq (a b : value) {struct a} : bool :=
  match a, b with
  | VNone, VNone => true
  | VBool x, VBool y => Bool.eqb x y
  | VBool x, VInt y => Z.eqb (if x then 1 else 0) y
  | VInt x, VBool y => Z.eqb x (if y then 1 else 0)
  | VInt x, VInt y => Z.eqb x y
  | VStr s, VStr t => String.eqb s t
  | VList l, VList m =>
      (fix go (l : list value) (m : list value) {struct l} : bool :=
         match l, m with
         | [], [] => true
         | x :: l', y :: m' => py_eq x y && go l' m'
         | _, _ => false
         end) l m
  | VDict d, VDict e =>
      Nat.eqb (List.length d) (List.length e) &&
      (fix go (d : list (string * value)) {struct d} : bool :=
         match d with
         | [] => true
         | (k, v) :: d' =>
             match dict_get k e with
             | Some v' => py_eq v v'
             | None => false
             end && go d'
         end) d
  | _, _ => false
  end.

Definition newline : string := String (ascii_of_nat 10) EmptyString.

(** ** Objects of the agents SDK *)

(** A message of a thread: its role and the values of its text parts
    ([message.text_messages[i].text.value]). *)
Record ThreadMessage : Type := mkMessage {
  msg_role : string;
  text_messages : list string
}.

(** A run: [run.id], [run.status] and [str(run.last_error)]. *)
Record ThreadRun : Type := mkRun {
  run_id : string;
  run_status : string;
  run_last_error : string
}.

(** What the service calls and does not define.  [E] is the state of the
    outside world (the agent platform and the booking service). *)
Class Externals (E : Type) : Type := {
  (* project.agents.threads.create() *)
  threads_create : E -> string * E;
  (* project.agents.messages.create(thread_id, role, content) *)
  messages_create : string -> string -> string -> E -> E;
  (* list(project.agents.messages.list(thread_id, order=ASCENDING)) *)
  messages_list : string -> E -> list ThreadMessage;
  (* list(project.agents.runs.list(thread_id)) *)
  runs_list : string -> E -> list ThreadRun;
  (* project.agents.runs.get(thread_id, run_id) *)
  runs_get : string -> string -> E -> ThreadRun * E;
  (* project.agents.runs.create_and_process(thread_id, agent_id) *)
  runs_create_and_process : string -> string -> E -> ThreadRun * E;
  (* time.time(): the reading of the k-th call *)
  wall_clock : nat -> Q;
  (* util.get_today_date(), its three components already as text *)
  get_today_date : E -> string * string * string;
  (* util.extract_json: None stands for the ValueError it raises *)
  extract_json : string -> option value;
  (* util.remove_source *)
  remove_source : string -> string;
  (* cal_com_methods.try_to_make_an_appointment *)
  try_to_make_an_appointment : value -> E -> value * E;
  (* str() of a value that is neither a string nor None *)
  py_repr : value -> string
}.

(** Calls to the platform and suspensions, in the order they happen. *)
Inductive Event : Type :=
| EvThreadCreate (thread_id : string)
| EvMessageCreate (thread_id role content : string)
| EvMessagesList (thread_id : string)
| EvRunsList (thread_id : string)
| EvRunGet (thread_id rid status : string)
| EvSleep (seconds : Q)
| EvRunCreateAndProcess (thread_id agent_id status : string)
| EvAppointment (request : value).

(** The JSON bodies of the three POST routes, well formed: each carries the
    keys its handler reads (a body without them ends the handler with the
    KeyError of [data[...]], before anything else is done). *)
Inductive Request : Type :=
| PostStart (message : option string)
| PostChat (message thread_id : string)
| PostEndConversation (thread_id : string).

(** A coroutine object: what a call to an [async def] function returns.  Its
    body runs when it is awaited, and only then. *)
Inductive Coroutine : Type :=
| Co_make_summary (thread_id : string).

Section Monad.

Context {E : Type} {X : Externals E}.

(** ** The state of the process and of what it talks to *)

Record World : Type := mkWorld {
  (* main.ONGOING_THREADS: thread id -> time of the last message *)
  ONGOING_THREADS : list (string * Q);
  (* the rows inserted so far, with their table *)
  supabase : list (option string * value);
  (* the agent platform *)
  project : E;
  (* number of calls to time.time() so far *)
  time_calls : nat;
  (* platform calls and sleeps so far, oldest first *)
  log : list Event;
  (* coroutine objects that were created and thrown away *)
  never_awaited : list Coroutine
}.

Definition with_ongoing (d : list (string * Q)) (w : World) : World :=
  mkWorld d (supabase w) (project w) (time_calls w) (log w) (never_awaited w).

Definition with_supabase (s : list (option string * value)) (w : World) : World :=
  mkWorld (ONGOING_THREADS w) s (project w) (time_calls w) (log w) (never_awaited w).

Definition with_project (e : E) (w : World) : World :=
  mkWorld (ONGOING_THREADS w) (supabase w) e (time_calls w) (log w) (never_awaited w).

Definition with_time_calls (n : nat) (w : World) : World :=
  mkWorld (ONGOING_THREADS w) (supabase w) (project w) n (log w) (never_awaited w).

Definition with_log (l : list Event) (w : World) : World :=
  mkWorld (ONGOING_THREADS w) (supabase w) (project w) (time_calls w) l (never_awaited w).

Definition with_never_awaited (c : list Coroutine) (w : World) : World :=
  mkWorld (ONGOING_THREADS w) (supabase w) (project w) (time_calls w) (log w) c.

Definition emit (ev : Event) (w : World) : World :=
  with_log (log w ++ [ev]) w.

(** ** The monad of handlers *)

Inductive outcome (A : Type) : Type :=
| Returned (a : A) (w : World)
| Raised (exn : string) (w : World)
| Pending (w : World).

Arguments Returned {A} a w.
Arguments Raised {A} exn w.
Arguments Pending {A} w.

Definition M (A : Type) : Type := World -> outcome A.

Definition ret {A : Type} (a : A) : M A := fun w => Returned a w.

Definition bind {A B : Type} (c : M A) (k : A -> M B) : M B :=
  fun w =>
    match c w with
    | Returned a w' => k a w'
    | Raised exn w' => Raised exn w'
    | Pending w' => Pending w'
    end.

Definition raise {A : Type} (exn : string) : M A := fun w => Raised exn w.

Definition modify (f : World -> World) : M unit := fun w => Returned tt (f w).

Definition gets {A : Type} (f : World -> A) : M A := fun w => Returned (f w) w.

End Monad.

Arguments World E : clear implicits.
Arguments outcome E A : clear implicits.
Arguments M E A : clear implicits.
Arguments Returned {E A} a w.
Arguments Raised {E A} exn w.
Arguments Pending {E A} w.

Declare Scope py_scope.
Delimit Scope py_scope with py.
Notation "x <- c ;; k" := (bind c (fun x => k))
  (at level 61, c at next level, right associativity) : py_scope.
Notation "c ;;; k" := (bind c (fun _ => k))
  (at level 61, right associativity) : py_scope.
Open Scope py_scope.

(** ** init_azure.py and main.py *)

Section Service.

Context {E : Type} {X : Externals E}.

(** agent_data.id, agent_summary.id and agent_summary_thread.id, as
    [get_agents()] hands them to main.py. *)
Variables agent_data_id agent_summary_id agent_summary_thread_id : string.

(** How much time a user has to respond before the chat is archived. *)
Definition time_limit_user_message : Q := 600%Q.

(** [a > b] on timestamps. *)
Definition Qgtb (a b : Q) : bool := negb (Qle_bool a b).

(** *** Calls to the outside *)

(** The calls below always succeed: an exception of the SDK or of the store
    (a request to the platform that fails, a refused insert) has no
    counterpart here.  What is proved of a handler is proved of its runs in
    which these calls succeed; the endings a handler has besides returning
    are the wait on a prior run ([Pending]) and the exceptions the handler's
    own code raises on the values it has in hand ([Raised]). *)

Definition time_time : M E Q :=
  fun w => Returned (wall_clock (time_calls w)) (with_time_calls (S (time_calls w)) w).

Definition asyncio_sleep (seconds : Q) : M E unit :=
  modify (emit (EvSleep seconds)).

(** init_azure.make_message *)
Definition make_message (thread_id role input_message : string) : M E unit :=
  modify (fun w =>
    emit (EvMessageCreate thread_id role input_message)
         (with_project (messages_create thread_id role input_message (project w)) w)).

(** init_azure.get_message_list *)
Definition get_message_list (thread_id : string) : M E (list ThreadMessage) :=
  fun w => Returned (messages_list thread_id (project w)) (emit (EvMessagesList thread_id) w).

(** init_azure.create_thread; the result stands for [thread.id]. *)
Definition create_thread : M E string :=
  fun w =>
    let created := threads_create (project w) in
    Returned (fst created) (emit (EvThreadCreate (fst created)) (with_project (snd created) w)).

Definition project_runs_list (thread_id : string) : M E (list ThreadRun) :=
  fun w => Returned (runs_list thread_id (project w)) (emit (EvRunsList thread_id) w).

Definition project_runs_get (thread_id rid : string) : M E ThreadRun :=
  fun w =>
    let got := runs_get thread_id rid (project w) in
    Returned (fst got)
      (emit (EvRunGet thread_id rid (run_status (fst got))) (with_project (snd got) w)).

Definition project_runs_create_and_process (thread_id agent_id : string)
  : M E ThreadRun :=
  fun w =>
    let processed := runs_create_and_process thread_id agent_id (project w) in
    Returned (fst processed)
      (emit (EvRunCreateAndProcess thread_id agent_id (run_status (fst processed)))
            (with_project (snd processed) w)).

(** [supabase.table(table_name).insert(row).execute()] *)
Definition supabase_insert (table_name : option string) (row : value) : M E unit :=
  modify (fun w => with_supabase (supabase w ++ [(table_name, row)]) w).

Definition row_field (k : string) (row : value) : value :=
  match row with
  | VDict d => match dict_get k d with Some v => v | None => VNone end
  | _ => VNone
  end.

(** [supabase.table("chatbot_data").select("role, message")
      .eq("thread_id", thread_id).eq("agent_id", agent_id).execute().data]:
    the role and the message of each matching row, in insertion order. *)
Definition supabase_select_conversation (thread_id agent_id : string)
  : M E (list (value * value)) :=
  gets (fun w =>
    map (fun tr => (row_field "role" (snd tr), row_field "message" (snd tr)))
      (filter
         (fun tr =>
            match fst tr with
            | Some table => String.eqb table "chatbot_data"
            | None => false
            end
            && py_eq (row_field "thread_id" (snd tr)) (VStr thread_id)
            && py_eq (row_field "agent_id" (snd tr)) (VStr agent_id))
         (supabase w))).

(** [cal_com_methods.try_to_make_an_appointment], awaited. *)
Definition await_try_to_make_an_appointment (chatbot_message : value) : M E value :=
  fun w =>
    let tried := try_to_make_an_appointment chatbot_message (project w) in
    Returned (fst tried) (emit (EvAppointment chatbot_message) (with_project (snd tried) w)).

(** [v[k]] *)
Definition subscript (v : value) (k : string) : M E value :=
  match v with
  | VDict d =>
      match dict_get k d with
      | Some x => ret x
      | None => raise "KeyError"
      end
  | _ => raise "TypeError"
  end.

(** [str(v)] inside an f-string. *)
Definition py_str (v : value) : string :=
  match v with
  | VStr s => s
  | VNone => "None"
  | _ => py_repr v
  end.

(** *** init_azure.run_agent *)

(** [status in ("in_progress", "queued")] *)
Definition in_progress_or_queued (status : string) : bool :=
  String.eqb status "in_progress" || String.eqb status "queued".

(** The [while True] loop of run_agent, [fuel] iterations of it at most. *)
Fixpoint wait_for_latest_run (fuel : nat) (thread_id : string) (latest_run : ThreadRun)
  : M E ThreadRun :=
  match fuel with
  | O => fun w => Pending w
  | S fuel' =>
      latest_run <- project_runs_get thread_id (run_id latest_run) ;;
      if in_progress_or_queued (run_status latest_run)
      then asyncio_sleep (1 # 2) ;;; wait_for_latest_run fuel' thread_id latest_run
      else ret latest_run
  end.

Definition run_agent (fuel : nat) (thread_id agent_id : string) : M E ThreadRun :=
  runs <- project_runs_list thread_id ;;
  match runs with
  | [] => ret tt
  | latest_run :: _ =>
      wait_for_latest_run fuel thread_id latest_run ;;; ret tt
  end ;;;
  run <- project_runs_create_and_process thread_id agent_id ;;
  ret run.

(** *** main.insert_chatbot_message *)

Definition assistant_row (thread_id : string) (message : value) : value :=
  VDict [("role", VStr "assistant"); ("thread_id", VStr thread_id);
         ("message", message); ("agent_id", VStr agent_data_id)].

Definition assistant_reply (thread_id : string) (message : value) : value :=
  VDict [("role", VStr "assistant"); ("message", message);
         ("thread_id", VStr thread_id); ("agent_id", VStr agent_data_id)].

(** [message.role == "assistant" and message.text_messages] *)
Definition is_assistant_text (message : ThreadMessage) : bool :=
  String.eqb (msg_role message) "assistant"
  && match text_messages message with [] => false | _ => true end.

(** The [for message in reversed(messages)] loop with the [return] that
    follows it; [messages] is already reversed. *)
Fixpoint latest_assistant_message (thread_id : string) (table_name : option string)
    (chatbot_type : string) (messages : list ThreadMessage) : M E value :=
  match messages with
  | [] => ret (assistant_reply thread_id (VStr "No response"))
  | message :: rest =>
      if is_assistant_text message then
        let message_to_insert := last (text_messages message) "" in
        let message_to_insert := remove_source message_to_insert in
        match extract_json message_to_insert with
        | Some message_to_insert =>
            if String.eqb chatbot_type "summary"
            then supabase_insert table_name message_to_insert ;;; ret VNone
            else ret (assistant_reply thread_id message_to_insert)
        | None =>
            supabase_insert table_name (assistant_row thread_id (VStr message_to_insert)) ;;;
            ret (assistant_reply thread_id (VStr message_to_insert))
        end
      else latest_assistant_message thread_id table_name chatbot_type rest
  end.

Definition insert_chatbot_message (thread_id : string) (table_name : option string)
    (chatbot_type : string) (msg : value) : M E value :=
  if truthy msg then
    message <- subscript msg "message" ;;
    supabase_insert (Some "chatbot_data") (assistant_row thread_id message) ;;;
    ret VNone
  else
    messages <- get_message_list thread_id ;;
    latest_assistant_message thread_id table_name chatbot_type (rev messages).

(** *** main.make_summary *)

(** Calling the [async def] gives the coroutine object. *)
Definition make_summary (thread_id : string) : Coroutine := Co_make_summary thread_id.

(** A coroutine object that nobody awaits: an expression statement
    [make_summary(thread_id)].  Its body does not run. *)
Definition drop_coroutine (c : Coroutine) : M E unit :=
  modify (fun w => with_never_awaited (never_awaited w ++ [c]) w).

Definition user_row (thread_id : string) (user_input : string) : value :=
  VDict [("role", VStr "user"); ("message", VStr user_input);
         ("thread_id", VStr thread_id); ("agent_id", VStr agent_data_id)].

(** The body of make_summary: what awaiting the coroutine would run. *)
Definition make_summary_body (fuel : nat) (thread_id : string) : M E unit :=
  message_list <- supabase_select_conversation thread_id agent_data_id ;;
  let conversation :=
    String.concat ""
      (map (fun message =>
              (py_str (fst message) ++ ": " ++ py_str (snd message) ++ newline)%string)
           message_list) in
  if negb (String.eqb conversation "") then
    make_message agent_summary_thread_id "user" conversation ;;;
    run <- run_agent fuel agent_summary_thread_id agent_summary_id ;;
    insert_chatbot_message agent_summary_thread_id (Some "hands_summary_data") "summary" VNone ;;;
    ret tt
  else ret tt.

(** [await c] *)
Definition await (fuel : nat) (c : Coroutine) : M E unit :=
  match c with
  | Co_make_summary thread_id => make_summary_body fuel thread_id
  end.

(** *** main.save_finished_threads *)

(** The [for thread_id, last_message_time in ONGOING_THREADS.items()] loop. *)
Fixpoint sweep_loop (items : list (string * Q)) (threads_to_check : Z)
    (threads_to_remove : list string) : M E (list string) :=
  match items with
  | [] => ret threads_to_remove
  | (thread_id, last_message_time) :: rest =>
      if Z.eqb threads_to_check 0 then ret threads_to_remove
      else
        time_now <- time_time ;;
        if Qgtb (time_now - last_message_time) time_limit_user_message then
          let threads_to_remove := threads_to_remove ++ [thread_id] in
          drop_coroutine (make_summary thread_id) ;;;
          sweep_loop rest threads_to_check threads_to_remove
        else sweep_loop rest threads_to_check threads_to_remove
  end.

(** [for thread_id in threads_to_remove: ONGOING_THREADS.pop(thread_id, None)] *)
Fixpoint pop_threads (threads_to_remove : list string) : M E unit :=
  match threads_to_remove with
  | [] => ret tt
  | thread_id :: rest =>
      modify (fun w => with_ongoing (dict_pop thread_id (ONGOING_THREADS w)) w) ;;;
      pop_threads rest
  end.

(** One turn of the [while True] loop of save_finished_threads. *)
Definition sweep_cycle : M E unit :=
  let threads_to_check := 4%Z in
  let threads_to_remove := [] in
  items <- gets ONGOING_THREADS ;;
  threads_to_remove <- sweep_loop items threads_to_check threads_to_remove ;;
  let threads_to_check := (threads_to_check - 1)%Z in
  pop_threads threads_to_remove ;;;
  asyncio_sleep 600.

(** The first [cycles] turns of save_finished_threads (it never returns). *)
Fixpoint save_finished_threads (cycles : nat) : M E unit :=
  match cycles with
  | O => ret tt
  | S n => sweep_cycle ;;; save_finished_threads n
  end.

(** *** The handlers *)

Definition date_message (today : string * string * string) : string :=
  let '(d0, d1, d2) := today in
  ("System message: Vandaag is " ++ d0 ++ ", " ++ d1 ++ ", " ++ d2
   ++ ". Gebruik deze datum altijd als referentie")%string.

Definition run_failed (run : ThreadRun) : value :=
  VDict [("role", VStr "assistant");
         ("message", VStr ("Run failed: " ++ run_last_error run)%string)].

(** POST /start; [user_input] is [data["message"]], None for null. *)
Definition give_thread_id (fuel : nat) (user_input : option string) : M E value :=
  thread <- create_thread ;;
  today <- gets (fun w => get_today_date (project w)) ;;
  make_message thread "user" (date_message today) ;;;
  match user_input with
  | None =>
      run <- run_agent fuel thread agent_data_id ;;
      ret (VDict [("thread_id", VStr thread)])
  | Some user_input =>
      supabase_insert (Some "chatbot_data") (user_row thread user_input) ;;;
      now <- time_time ;;
      modify (fun w => with_ongoing (dict_set thread now (ONGOING_THREADS w)) w) ;;;
      make_message thread "user" user_input ;;;
      run <- run_agent fuel thread agent_data_id ;;
      if String.eqb (run_status run) "failed" then ret (run_failed run)
      else
        chatbot_message <- insert_chatbot_message thread (Some "chatbot_data") "data" VNone ;;
        ret chatbot_message
  end.

(** POST /chat *)
Definition chat (fuel : nat) (user_input user_thread_id : string) : M E value :=
  now <- time_time ;;
  modify (fun w => with_ongoing (dict_set user_thread_id now (ONGOING_THREADS w)) w) ;;;
  make_message user_thread_id "user" user_input ;;;
  supabase_insert (Some "chatbot_data") (user_row user_thread_id user_input) ;;;
  run <- run_agent fuel user_thread_id agent_data_id ;;
  if String.eqb (run_status run) "failed" then ret (run_failed run)
  else
    chatbot_message <- insert_chatbot_message user_thread_id (Some "chatbot_data") "data" VNone ;;
    msg <- await_try_to_make_an_appointment chatbot_message ;;
    new_message <- subscript msg "message" ;;
    old_message <- subscript chatbot_message "message" ;;
    if negb (py_eq new_message old_message)
    then insert_chatbot_message user_thread_id None "data" msg ;;; ret msg
    else ret msg.

(** POST /end_conversation *)
Definition end_conversation (thread_id : string) : M E value :=
  modify (fun w => with_ongoing (dict_pop thread_id (ONGOING_THREADS w)) w) ;;;
  drop_coroutine (make_summary thread_id) ;;;
  ret VNone.

(** The routes of the application that take a body. *)
Definition app (fuel : nat) (request : Request) : M E value :=
  match request with
  | PostStart message => give_thread_id fuel message
  | PostChat message thread_id => chat fuel message thread_id
  | PostEndConversation thread_id => end_conversation thread_id
  end.

(** *** Slices of the handlers, to speak of the state a run starts from *)

(** give_thread_id up to its call of run_agent: the thread is created, the
    date message posted and, when there is a message, the user's row
    inserted, the map updated and the message posted.  The result is
    [thread.id]. *)
Definition start_prelude (user_input : option string) : M E string :=
  thread <- create_thread ;;
  today <- gets (fun w => get_today_date (project w)) ;;
  make_message thread "user" (date_message today) ;;;
  match user_input with
  | None => ret thread
  | Some user_input =>
      supabase_insert (Some "chatbot_data") (user_row thread user_input) ;;;
      now <- time_time ;;
      modify (fun w => with_ongoing (dict_set thread now (ONGOING_THREADS w)) w) ;;;
      make_message thread "user" user_input ;;;
      ret thread
  end.

(** chat up to its call of run_agent; the result is the thread id of the
    body. *)
Definition chat_prelude (user_input user_thread_id : string) : M E string :=
  now <- time_time ;;
  modify (fun w => with_ongoing (dict_set user_thread_id now (ONGOING_THREADS w)) w) ;;;
  make_message user_thread_id "user" user_input ;;;
  supabase_insert (Some "chatbot_data") (user_row user_thread_id user_input) ;;;
  ret user_thread_id.

(** A request with an agent run, up to its call of run_agent: the thread the
    run is on.  Ending a conversation calls no run_agent. *)
Definition prelude (request : Request) : M E string :=
  match request with
  | PostStart message => start_prelude message
  | PostChat message thread_id => chat_prelude message thread_id
  | PostEndConversation thread_id => raise "no agent run"
  end.

End Service.

(** ** A small platform to run the service on *)

Module Demo.

(** A platform with one listing of prior runs for every thread, whose polled
    run stays in progress for [busy_polls] more polls ([None]: for ever), and
    whose agent answers [answer] unless the run is to fail. *)
Record Platform : Type := mkPlatform {
  prior_runs : list ThreadRun;
  busy_polls : option nat;
  next_status : string;
  answer : list string;
  threads : list (string * ThreadMessage)
}.

Definition demo_runs_get (thread_id rid : string) (p : Platform) : ThreadRun * Platform :=
  match busy_polls p with
  | None => (mkRun rid "in_progress" "", p)
  | Some (S n) =>
      (mkRun rid "queued" "",
       mkPlatform (prior_runs p) (Some n) (next_status p) (answer p) (threads p))
  | Some O => (mkRun rid "completed" "", p)
  end.

Definition demo_create_and_process (thread_id agent_id : string) (p : Platform)
  : ThreadRun * Platform :=
  let run := mkRun "run_new" (next_status p) "rate_limit_exceeded" in
  if String.eqb (next_status p) "failed" then (run, p)
  else
    (run,
     mkPlatform (prior_runs p) (busy_polls p) (next_status p) (answer p)
       (threads p ++ [(thread_id, mkMessage "assistant" (answer p))])).

#[global] Instance demo_externals : Externals Platform := {
  threads_create p := ("thread_new", p);
  messages_create thread_id role content p :=
    mkPlatform (prior_runs p) (busy_polls p) (next_status p) (answer p)
      (threads p ++ [(thread_id, mkMessage role [content])]);
  messages_list thread_id p :=
    map snd (filter (fun tm => String.eqb (fst tm) thread_id) (threads p));
  runs_list thread_id p := prior_runs p;
  runs_get := demo_runs_get;
  runs_create_and_process := demo_create_and_process;
  wall_clock k := 1000%Q;
  get_today_date p := ("maandag", "3 november", "2026");
  extract_json s :=
    if String.prefix "{" s then Some (VDict [("summary", VStr s)]) else None;
  remove_source s := s;
  try_to_make_an_appointment v p := (v, p);
  py_repr v := "<object>"
}.

Definition world (ongoing : list (string * Q)) (rows : list (option string * value))
    (p : Platform) : World Platform :=
  mkWorld ongoing rows p 0 [] [].

(** No prior run; the agent answers in plain text. *)
Definition fresh : Platform :=
  mkPlatform [] (Some 0%nat) "completed" ["Hallo!"] [].

(** A prior run that needs two more polls before it is done. *)
Definition busy : Platform :=
  mkPlatform [mkRun "run_old" "in_progress" ""] (Some 2%nat) "completed" ["Hallo!"] [].

(** A prior run that never leaves in_progress. *)
Definition stuck : Platform :=
  mkPlatform [mkRun "run_old" "in_progress" ""] None "completed" ["Hallo!"] [].

(** The agent's run fails. *)
Definition failing : Platform :=
  mkPlatform [] (Some 0%nat) "failed" [] [].

(** The agent answers without text. *)
Definition mute : Platform :=
  mkPlatform [] (Some 0%nat) "completed" [] [].

(** The summary agent answers with JSON. *)
Definition summarizing : Platform :=
  mkPlatform [] (Some 0%nat) "completed" ["{}"] [].

(** Thread t1 has been answered in plain text. *)
Definition answered : Platform :=
  mkPlatform [] (Some 0%nat) "completed" ["Hallo!"]
    [("t1", mkMessage "user" ["hoi"]);
     ("t1", mkMessage "assistant" ["Goedendag"; "Hallo!"]);
     ("t1", mkMessage "user" ["nog iets"])].

Definition agent_data_id : string := "agent_data".
Definition agent_summary_id : string := "agent_summary".
Definition agent_summary_thread_id : string := "thread_summary".

(** One persisted turn of thread t1. *)
Definition history_t1 : list (option string * value) :=
  [(Some "chatbot_data", user_row agent_data_id "t1" "Ik wil een afspraak")].

End Demo.

(** ** A platform with a booking helper that answers *)

Module Booking.

(** What the helper answers to a reply whose message is structured data: a
    confirmation in plain text.  Any other reply comes back as it is. *)
Definition confirm (chatbot_message : value) : value :=
  match chatbot_message with
  | VDict d =>
      match dict_get "message" d with
      | Some (VDict _) =>
          VDict [("role", VStr "assistant"); ("message", VStr "Afspraak bevestigd")]
      | _ => chatbot_message
      end
  | _ => chatbot_message
  end.

(** The small platform of [Demo], with that helper. *)
Definition booking_externals : Externals Demo.Platform := {|
  threads_create := @threads_create _ Demo.demo_externals;
  messages_create := @messages_create _ Demo.demo_externals;
  messages_list := @messages_list _ Demo.demo_externals;
  runs_list := @runs_list _ Demo.demo_externals;
  runs_get := @runs_get _ Demo.demo_externals;
  runs_create_and_process := @runs_create_and_process _ Demo.demo_externals;
  wall_clock := @wall_clock _ Demo.demo_externals;
  get_today_date := @get_today_date _ Demo.demo_externals;
  extract_json := @extract_json _ Demo.demo_externals;
  remove_source := @remove_source _ Demo.demo_externals;
  try_to_make_an_appointment := fun v p => (confirm v, p);
  py_repr := @py_repr _ Demo.demo_externals
|}.

(** The same helper, answering without a message. *)
Definition silent_externals : Externals Demo.Platform := {|
  threads_create := @threads_create _ Demo.demo_externals;
  messages_create := @messages_create _ Demo.demo_externals;
  messages_list := @messages_list _ Demo.demo_externals;
  runs_list := @runs_list _ Demo.demo_externals;
  runs_get := @runs_get _ Demo.demo_externals;
  runs_create_and_process := @runs_create_and_process _ Demo.demo_externals;
  wall_clock := @wall_clock _ Demo.demo_externals;
  get_today_date := @get_today_date _ Demo.demo_externals;
  extract_json := @extract_json _ Demo.demo_externals;
  remove_source := @remove_source _ Demo.demo_externals;
  try_to_make_an_appointment := fun v p => (VDict [("status", VStr "ok")], p);
  py_repr := @py_repr _ Demo.demo_externals
|}.

(** A clock that starts at 1000 and advances one second per reading. *)
Definition ticking_externals : Externals Demo.Platform := {|
  threads_create := @threads_create _ Demo.demo_externals;
  messages_create := @messages_create _ Demo.demo_externals;
  messages_list := @messages_list _ Demo.demo_externals;
  runs_list := @runs_list _ Demo.demo_externals;
  runs_get := @runs_get _ Demo.demo_externals;
  runs_create_and_process := @runs_create_and_process _ Demo.demo_externals;
  wall_clock := fun k => (1000 + inject_Z (Z.of_nat k))%Q;
  get_today_date := @get_today_date _ Demo.demo_externals;
  extract_json := @extract_json _ Demo.demo_externals;
  remove_source := @remove_source _ Demo.demo_externals;
  try_to_make_an_appointment := @try_to_make_an_appointment _ Demo.demo_externals;
  py_repr := @py_repr _ Demo.demo_externals
|}.

(** Thread t1 has been answered with structured data. *)
Definition json_answered : Demo.Platform :=
  Demo.mkPlatform [] (Some 0%nat) "completed" ["{}"]
    [("t1", mkMessage "user" ["boek maandag"]);
     ("t1", mkMessage "assistant" ["{dag: maandag}"])].

End Booking.

(** ** A platform whose listing holds two prior runs *)

Module Overlap.



End Overlap.

(** ** Specification vocabulary *)

(** The world a computation leaves behind, however it ends. *)
Definition outcome_world {E A : Type} (o : outcome E A) : World E :=
  match o with
  | Returned _ w => w
  | Raised _ w => w
  | Pending w => w
  end.

(** The map, the clock readings and the dropped coroutines are untouched. *)
Definition same_map {E : Type} (w w' : World E) : Prop :=
  ONGOING_THREADS w' = ONGOING_THREADS w /\
  time_calls w' = time_calls w /\
  never_awaited w' = never_awaited w.

(** The store gained at most [n] rows, all of them in chatbot_data, and lost
    or changed none. *)
Definition chat_rows_added {E : Type} (n : nat) (w w' : World E) : Prop :=
  exists rows,
    supabase w' = supabase w ++ rows /\
    (List.length rows <= n)%nat /\
    Forall (fun tr => fst tr = Some "chatbot_data") rows.

(** What chat does once the reply of the assistant is known (main.py lines
    214 to 218), as a function of the helper's answer: the answer is
    returned; when its message differs from the reply's it is stored first
    as one more assistant row of chatbot_data; an answer that is not a dict,
    or has no message, raises. *)
Definition after_appointment {E : Type} {X : Externals E} (agent_data_id : string)
    (thread_id : string) (reply : value) (w : World E) : outcome E value :=
  let chatbot_message := assistant_reply agent_data_id thread_id reply in
  let tried := try_to_make_an_appointment chatbot_message (project w) in
  let w' := emit (EvAppointment chatbot_message) (with_project (snd tried) w) in
  match fst tried with
  | VDict fields =>
      match dict_get "message" fields with
      | Some message =>
          if py_eq message reply then Returned (fst tried) w'
          else
            Returned (fst tried)
              (with_supabase
                 (supabase w'
                  ++ [(Some "chatbot_data",
                       assistant_row agent_data_id thread_id message)])
                 w')
      | None => Raised "KeyError" w'
      end
  | _ => Raised "TypeError" w'
  end.

(** What the request has done to the map, the clock and the store, however
    it ended. *)
Definition request_effect {E : Type} {X : Externals E} (agent_data_id : string)
    (request : Request) (w w' : World E) : Prop :=
  never_awaited w'
  = match request with
    | PostEndConversation thread_id => never_awaited w ++ [make_summary thread_id]
    | _ => never_awaited w
    end /\
  ONGOING_THREADS w'
  = match request with
    | PostStart None => ONGOING_THREADS w
    | PostStart (Some _) =>
        dict_set (fst (threads_create (project w))) (wall_clock (time_calls w))
          (ONGOING_THREADS w)
    | PostChat _ thread_id =>
        dict_set thread_id (wall_clock (time_calls w)) (ONGOING_THREADS w)
    | PostEndConversation thread_id => dict_pop thread_id (ONGOING_THREADS w)
    end /\
  exists rows,
    supabase w' = supabase w ++ rows /\
    Forall (fun tr => fst tr = Some "chatbot_data") rows /\
    match request with
    | PostStart None | PostEndConversation _ => rows = []
    | PostStart (Some message) =>
        exists rest,
          rows = (Some "chatbot_data",
                  user_row agent_data_id (fst (threads_create (project w))) message)
                 :: rest /\
          (List.length rest <= 1)%nat
    | PostChat message thread_id =>
        exists rest,
          rows = (Some "chatbot_data", user_row agent_data_id thread_id message) :: rest /\
          (List.length rest <= 2)%nat
    end.

Section Vocabulary.

Context {E : Type} {X : Externals E}.

(** The threads of [items] that are idle for more than the limit at the
    moment the sweep looks at them, when the first look is the [k]-th reading
    of the clock. *)
Fixpoint expired_threads (k : nat) (items : list (string * Q)) : list string :=
  match items with
  | [] => []
  | (thread_id, last_message_time) :: rest =>
      if Qgtb (wall_clock k - last_message_time) time_limit_user_message
      then thread_id :: expired_threads (S k) rest
      else expired_threads (S k) rest
  end.

(** The answer of the [k]-th of successive [runs.get] calls, the way
    run_agent issues them: each call asks for the id of the run object the
    call before returned. *)
Fixpoint nth_poll (k : nat) (thread_id rid : string) (e : E) : ThreadRun :=
  let (run, e') := runs_get thread_id rid e in
  match k with
  | O => run
  | S k' => nth_poll k' thread_id (run_id run) e'
  end.

(** Events of the log that create a run. *)
Definition is_run_create (ev : Event) : bool :=
  match ev with
  | EvRunCreateAndProcess _ _ _ => true
  | _ => false
  end.

Definition runs_created (l : list Event) : nat :=
  List.length (filter is_run_create l).

End Vocabulary.


(** A stretch of log made of polls of runs of [thread_id] that found the run
    in progress or queued, each followed by a sleep of half a second. *)
Inductive busy_wait (thread_id : string) : list Event -> Prop :=
| busy_wait_nil : busy_wait thread_id []
| busy_wait_cons rid status polls :
    in_progress_or_queued status = true ->
    busy_wait thread_id polls ->
    busy_wait thread_id (EvRunGet thread_id rid status :: EvSleep (1 # 2) :: polls).

(** Two worlds that differ in the platform and the log only. *)
Definition same_process {E : Type} (w w' : World E) : Prop :=
  ONGOING_THREADS w' = ONGOING_THREADS w /\
  supabase w' = supabase w /\
  time_calls w' = time_calls w /\
  never_awaited w' = never_awaited w.

Definition Coroutine_eq_dec (a b : Coroutine) : {a = b} + {a <> b}.
Proof.
  destruct a as [s], b as [t].
  destruct (string_dec s t) as [->|n]; [left; reflexivity | right; congruence].
Defined.

(** ** Dictionaries *)

Section Dicts.

Variable A : Type.
Implicit Types (d : list (string * A)) (k : string).

Lemma dict_get_pop_other k k' d :
  k <> k' -> dict_get k' (dict_pop k d) = dict_get k' d.
Proof.
  intros Hne. induction d as [|[k0 v0] d IH]; simpl; [reflexivity|].
  destruct (String.eqb k0 k) eqn:Hk.
  - apply String.eqb_eq in Hk. subst k0.
    destruct (String.eqb k k') eqn:Hk'; [|reflexivity].
    apply String.eqb_eq in Hk'. contradiction.
  - simpl. destruct (String.eqb k0 k'); [reflexivity | exact IH].
Qed.

Lemma dict_get_absent k d :
  ~ In k (dict_keys d) -> dict_get k d = None.
Proof.
  induction d as [|[k0 v0] d IH]; simpl; intros Hn; [reflexivity|].
  destruct (String.eqb k0 k) eqn:Hk.
  - apply String.eqb_eq in Hk. subst. exfalso. apply Hn. now left.
  - apply IH. intros H. apply Hn. now right.
Qed.

Lemma dict_keys_pop_incl k d x :
  In x (dict_keys (dict_pop k d)) -> In x (dict_keys d).
Proof.
  induction d as [|[k0 v0] d IH]; simpl; [tauto|].
  destruct (String.eqb k0 k); simpl; intuition.
Qed.

(** A dict has each key once, and popping keeps it so. *)
Lemma dict_pop_NoDup k d :
  NoDup (dict_keys d) -> NoDup (dict_keys (dict_pop k d)).
Proof.
  induction d as [|[k0 v0] d IH]; simpl; intros Hnd; [constructor|].
  inversion Hnd as [|? ? Hnotin Hnd']; subst.
  destruct (String.eqb k0 k); [exact Hnd'|].
  simpl. constructor; [|now apply IH].
  intros H. apply Hnotin. eapply dict_keys_pop_incl. exact H.
Qed.

Lemma dict_get_pop_same k d :
  NoDup (dict_keys d) -> dict_get k (dict_pop k d) = None.
Proof.
  induction d as [|[k0 v0] d IH]; simpl; intros Hnd; [reflexivity|].
  inversion Hnd as [|? ? Hnotin Hnd']; subst.
  destruct (String.eqb k0 k) eqn:Hk.
  - apply String.eqb_eq in Hk. subst. now apply dict_get_absent.
  - simpl. rewrite Hk. now apply IH.
Qed.

Lemma dict_set_NoDup k (v : A) d :
  NoDup (dict_keys d) -> NoDup (dict_keys (dict_set k v d)).
Proof.
  induction d as [|[k0 v0] d IH]; simpl; intros Hnd.
  - constructor; [tauto | constructor].
  - inversion Hnd as [|? ? Hnotin Hnd']; subst.
    destruct (String.eqb k0 k) eqn:Hk; simpl.
    + constructor; assumption.
    + constructor; [|now apply IH].
      intros H. apply Hnotin. clear - H Hk.
      induction d as [|[k1 v1] d IHd]; simpl in *.
      * destruct H as [H|[]]. subst. rewrite String.eqb_refl in Hk. discriminate.
      * destruct (String.eqb k1 k); simpl in *; intuition.
Qed.

Lemma dict_get_nth k (v : A) d i :
  NoDup (dict_keys d) -> nth_error d i = Some (k, v) -> dict_get k d = Some v.
Proof.
  revert i. induction d as [|[k0 v0] d IH]; intros i Hnd Hi.
  - destruct i; discriminate.
  - inversion Hnd as [|? ? Hnotin Hnd']; subst. destruct i as [|i]; simpl in *.
    + injection Hi as -> ->. now rewrite String.eqb_refl.
    + destruct (String.eqb k0 k) eqn:Hk.
      * apply String.eqb_eq in Hk. subst. exfalso. apply Hnotin.
        apply nth_error_In in Hi. change k with (fst (k, v)). now apply in_map.
      * eapply IH; eassumption.
Qed.

Lemma pop_all_NoDup ks d :
  NoDup (dict_keys d) -> NoDup (dict_keys (pop_all ks d)).
Proof.
  revert d. induction ks as [|k ks IH]; simpl; intros d Hnd; [exact Hnd|].
  apply IH. now apply dict_pop_NoDup.
Qed.

Lemma pop_all_get_other ks d k :
  ~ In k ks -> dict_get k (pop_all ks d) = dict_get k d.
Proof.
  revert d. induction ks as [|k0 ks IH]; simpl; intros d Hn; [reflexivity|].
  rewrite IH by tauto. apply dict_get_pop_other. intros ->. apply Hn. now left.
Qed.

Lemma pop_all_get_popped ks d k :
  NoDup (dict_keys d) -> In k ks -> dict_get k (pop_all ks d) = None.
Proof.
  revert d. induction ks as [|k0 ks IH]; simpl; intros d Hnd Hin; [contradiction|].
  destruct (in_dec string_dec k ks) as [Hi|Hni].
  - apply IH; [now apply dict_pop_NoDup | exact Hi].
  - destruct Hin as [->|Hin]; [|contradiction].
    rewrite pop_all_get_other by exact Hni. now apply dict_get_pop_same.
Qed.

End Dicts.

(** ** The idle sweep *)

Section Sweep.

Context {E : Type} {X : Externals E}.
Implicit Types (w : World E) (items : list (string * Q)).

Lemma Qgtb_true (a b : Q) : Qgtb a b = true <-> (b < a)%Q.
Proof.
  unfold Qgtb. rewrite negb_true_iff. split.
  - intros H. apply Qnot_le_lt. intros Hle.
    apply Qle_bool_iff in Hle. congruence.
  - intros H. destruct (Qle_bool a b) eqn:Hb; [|reflexivity].
    apply Qle_bool_iff in Hb. exfalso. eapply Qlt_not_le; eassumption.
Qed.

(** A thread is among the expired ones exactly when one of its entries is
    too old at the reading taken for that entry. *)
Lemma expired_threads_In k items thread_id :
  In thread_id (expired_threads k items) <->
  exists i last_message_time,
    nth_error items i = Some (thread_id, last_message_time) /\
    (time_limit_user_message < wall_clock (k + i) - last_message_time)%Q.
Proof.
  revert k. induction items as [|[t l] items IH]; intros k; simpl.
  - split; [tauto|]. intros (i & l & H & _). destruct i; discriminate.
  - destruct (Qgtb (wall_clock k - l) time_limit_user_message) eqn:Hx.
    + simpl. rewrite IH. split.
      * intros [->|(i & l' & Hi & Hlt)].
        -- exists 0%nat, l. rewrite Nat.add_0_r. split; [reflexivity|].
           now apply Qgtb_true.
        -- exists (S i), l'. rewrite Nat.add_succ_r. now split.
      * intros (i & l' & Hi & Hlt). destruct i as [|i]; simpl in Hi.
        -- injection Hi as -> ->. now left.
        -- right. exists i, l'. rewrite Nat.add_succ_r in Hlt. now split.
    + rewrite IH. split.
      * intros (i & l' & Hi & Hlt). exists (S i), l'. rewrite Nat.add_succ_r. now split.
      * intros (i & l' & Hi & Hlt). destruct i as [|i]; simpl in Hi.
        -- injection Hi as -> ->. rewrite Nat.add_0_r in Hlt.
           apply Qgtb_true in Hlt. congruence.
        -- exists i, l'. rewrite Nat.add_succ_r in Hlt. now split.
Qed.

Lemma expired_threads_incl k items thread_id :
  In thread_id (expired_threads k items) -> In thread_id (dict_keys items).
Proof.
  revert k. induction items as [|[t l] items IH]; intros k; simpl; [tauto|].
  destruct (Qgtb _ _); simpl; intros H.
  - destruct H as [->|H]; [now left | right; eauto].
  - right; eauto.
Qed.

Lemma expired_threads_NoDup k items :
  NoDup (dict_keys items) -> NoDup (expired_threads k items).
Proof.
  revert k. induction items as [|[t l] items IH]; intros k Hnd; simpl; [constructor|].
  inversion Hnd as [|? ? Hnotin Hnd']; subst.
  destruct (Qgtb _ _); [|now apply IH].
  constructor; [|now apply IH].
  intros H. apply Hnotin. eapply expired_threads_incl. exact H.
Qed.

(** The loop of the sweep: as long as the counter is not zero when the loop
    starts, it reads the clock once per entry, and for each expired entry
    notes the thread and creates (without awaiting it) its coroutine. *)
Lemma sweep_loop_spec items : forall (c : Z) (removed : list string) w,
  c <> 0%Z ->
  exists w',
    sweep_loop items c removed w
    = Returned (removed ++ expired_threads (time_calls w) items) w' /\
    ONGOING_THREADS w' = ONGOING_THREADS w /\
    supabase w' = supabase w /\
    project w' = project w /\
    log w' = log w /\
    time_calls w' = (time_calls w + List.length items)%nat /\
    never_awaited w'
    = never_awaited w ++ map make_summary (expired_threads (time_calls w) items).
Proof.
  induction items as [|[t l] items IH]; intros c removed w Hc.
  - exists w. simpl. unfold ret. rewrite !app_nil_r, Nat.add_0_r. tauto.
  - simpl. apply Z.eqb_neq in Hc as Hc'. rewrite Hc'.
    unfold bind at 1. unfold time_time at 1.
    destruct (Qgtb (wall_clock (time_calls w) - l) time_limit_user_message).
    + unfold bind at 1. unfold drop_coroutine, modify.
      destruct (IH c (removed ++ [t])
                  (with_never_awaited
                     (never_awaited (with_time_calls (S (time_calls w)) w) ++ [make_summary t])
                     (with_time_calls (S (time_calls w)) w)) Hc)
        as (w' & Heq & H1 & H2 & H3 & H4 & H5 & H6).
      exists w'. simpl in *. rewrite Heq, <- !app_assoc. simpl.
      rewrite H6, <- app_assoc. simpl.
      repeat split; try assumption. lia.
    + destruct (IH c removed (with_time_calls (S (time_calls w)) w) Hc)
        as (w' & Heq & H1 & H2 & H3 & H4 & H5 & H6).
      exists w'. simpl in *. rewrite Heq.
      repeat split; try assumption. lia.
Qed.

Lemma pop_threads_spec (ks : list string) : forall w,
  pop_threads ks w
  = Returned tt (with_ongoing (pop_all ks (ONGOING_THREADS w)) w).
Proof.
  induction ks as [|k ks IH]; intros w; simpl.
  - unfold ret. destruct w; reflexivity.
  - unfold bind, modify. rewrite IH. reflexivity.
Qed.

(** What one turn of the sweep does to the world. *)
Lemma sweep_cycle_spec w :
  let expired := expired_threads (time_calls w) (ONGOING_THREADS w) in
  exists w',
    sweep_cycle w = Returned tt w' /\
    ONGOING_THREADS w' = pop_all expired (ONGOING_THREADS w) /\
    supabase w' = supabase w /\
    project w' = project w /\
    log w' = log w ++ [EvSleep 600] /\
    time_calls w' = (time_calls w + List.length (ONGOING_THREADS w))%nat /\
    never_awaited w' = never_awaited w ++ map make_summary expired.
Proof.
  intros expired. unfold sweep_cycle.
  unfold bind at 1. unfold gets at 1.
  destruct (@sweep_loop_spec (ONGOING_THREADS w) 4%Z [] w)
    as (w1 & Heq & H1 & H2 & H3 & H4 & H5 & H6); [discriminate|].
  unfold bind at 1. rewrite Heq. simpl app.
  unfold bind at 1. rewrite pop_threads_spec.
  unfold asyncio_sleep, modify.
  eexists. split; [reflexivity|]. simpl.
  rewrite H1, H2, H3, H4, H5, H6. fold expired. repeat split; reflexivity.
Qed.

End Sweep.

Section SweepClaims.

Context {E : Type} {X : Externals E}.
Implicit Types (w : World E).

(** What holds of C1 on the code.  After one turn of the sweep a thread that
    was too old when the sweep looked at it is no longer in the map and
    exactly one make_summary coroutine was created for it; a thread that was
    not too old is still in the map with its timestamp.  The coroutines are
    never awaited: the store, the platform and the log of platform calls are
    what they were (the log gains the sleep of 600 seconds). *)
Lemma sweep_cycle_removes_expired_keeps_fresh w :
  NoDup (dict_keys (ONGOING_THREADS w)) ->
  exists w',
    sweep_cycle w = Returned tt w' /\
    supabase w' = supabase w /\ project w' = project w /\
    log w' = log w ++ [EvSleep 600] /\
    exists created,
      never_awaited w' = never_awaited w ++ created /\
      forall i thread_id last_message_time,
        nth_error (ONGOING_THREADS w) i = Some (thread_id, last_message_time) ->
        ((time_limit_user_message
          < wall_clock (time_calls w + i) - last_message_time)%Q ->
         dict_get thread_id (ONGOING_THREADS w') = None /\
         count_occ Coroutine_eq_dec created (make_summary thread_id) = 1%nat) /\
        (~ (time_limit_user_message
            < wall_clock (time_calls w + i) - last_message_time)%Q ->
         dict_get thread_id (ONGOING_THREADS w') = Some last_message_time /\
         count_occ Coroutine_eq_dec created (make_summary thread_id) = 0%nat).
Proof.
  intros Hnd.
  destruct (sweep_cycle_spec w) as (w' & Heq & Ho & Hs & Hp & Hl & _ & Hn).
  exists w'. repeat (split; [assumption|]).
  eexists. split; [exact Hn|].
  intros i t l Hi.
  assert (Hinj : forall a b, make_summary a = make_summary b -> a = b)
    by (intros a b H; injection H; auto).
  split; intros Hlt.
  - assert (Hin : In t (expired_threads (time_calls w) (ONGOING_THREADS w)))
      by (apply expired_threads_In; eauto).
    split.
    + rewrite Ho. now apply pop_all_get_popped.
    + apply NoDup_count_occ'.
      * apply Finite.Injective_map_NoDup; [exact Hinj|].
        now apply expired_threads_NoDup.
      * now apply in_map.
  - assert (Hin : ~ In t (expired_threads (time_calls w) (ONGOING_THREADS w))).
    { intros Hin. apply expired_threads_In in Hin as (j & l' & Hj & Hlt').
      assert (j = i).
      { apply (proj1 (NoDup_nth_error (dict_keys (ONGOING_THREADS w))) Hnd).
        - unfold dict_keys. rewrite length_map. apply nth_error_Some. congruence.
        - unfold dict_keys. rewrite !nth_error_map, Hi, Hj. reflexivity. }
      subst j. rewrite Hi in Hj. injection Hj as <-. contradiction. }
    split.
    + rewrite Ho, pop_all_get_other by exact Hin.
      eapply dict_get_nth; eassumption.
    + apply count_occ_not_In. intros H. apply in_map_iff in H as (t' & Ht' & Hin').
      apply Hinj in Ht'. subst. contradiction.
Qed.

(** C3.  The cap of 4 never limits a turn of the sweep, whatever the map
    holds: the counter is still 4 at every test of the loop (it is
    decremented once the loop is over), so the turn reads the clock once per
    entry of the map, and every entry that is too old at its reading, at
    whatever position, has its coroutine created and its thread popped. *)
Theorem sweep_cap_never_limits w :
  exists w',
    sweep_cycle w = Returned tt w' /\
    time_calls w' = (time_calls w + List.length (ONGOING_THREADS w))%nat /\
    exists inspected_expired,
      ONGOING_THREADS w' = pop_all inspected_expired (ONGOING_THREADS w) /\
      never_awaited w' = never_awaited w ++ map make_summary inspected_expired /\
      forall thread_id,
        In thread_id inspected_expired <->
        exists i last_message_time,
          nth_error (ONGOING_THREADS w) i = Some (thread_id, last_message_time) /\
          (time_limit_user_message
           < wall_clock (time_calls w + i) - last_message_time)%Q.
Proof.
  destruct (sweep_cycle_spec w) as (w' & Heq & Ho & _ & _ & _ & Ht & Hn).
  exists w'. split; [exact Heq|]. split; [exact Ht|].
  exists (expired_threads (time_calls w) (ONGOING_THREADS w)).
  split; [exact Ho|]. split; [exact Hn|].
  intros t. apply expired_threads_In.
Qed.

(** The loop itself: with any counter other than zero it goes through the
    whole list, however long. *)
Lemma sweep_loop_goes_through items (c : Z) w :
  c <> 0%Z ->
  exists removed w',
    sweep_loop items c [] w = Returned removed w' /\
    time_calls w' = (time_calls w + List.length items)%nat.
Proof.
  intros Hc. destruct (@sweep_loop_spec E X items c [] w Hc) as (w' & Heq & H).
  eexists _, w'. split; [exact Heq | tauto].
Qed.

(** The sweep goes on turn after turn, and none of its turns summarizes
    anything: after any number of turns the store and the platform are what
    they were and no run was created; the map is still a dict. *)
Lemma save_finished_threads_never_summarizes cycles : forall w,
  NoDup (dict_keys (ONGOING_THREADS w)) ->
  exists w',
    save_finished_threads cycles w = Returned tt w' /\
    NoDup (dict_keys (ONGOING_THREADS w')) /\
    supabase w' = supabase w /\
    project w' = project w /\
    runs_created (log w') = runs_created (log w).
Proof.
  induction cycles as [|n IH]; intros w Hnd.
  - exists w. repeat split. exact Hnd.
  - simpl. unfold bind.
    destruct (sweep_cycle_spec w) as (w1 & -> & Ho & Hs & Hp & Hl & _).
    destruct (IH w1) as (w' & -> & Hnd' & Hs' & Hp' & Hl').
    { rewrite Ho. now apply pop_all_NoDup. }
    exists w'. split; [reflexivity|]. split; [exact Hnd'|].
    split; [congruence|]. split; [congruence|].
    rewrite Hl', Hl. unfold runs_created. rewrite filter_app, length_app.
    simpl. lia.
Qed.

End SweepClaims.

(** Six idle threads, two more than the cap: one turn reads the clock six
    times and pops all six. *)
Example sweep_six_threads :
  exists w',
    sweep_cycle
      (Demo.world [("a", 0%Q); ("b", 1%Q); ("c", 2%Q); ("d", 3%Q); ("e", 4%Q); ("f", 5%Q)]
                  [] Demo.fresh)
    = Returned tt w' /\
    ONGOING_THREADS w' = [] /\ time_calls w' = 6%nat.
Proof. eexists. split; [vm_compute; reflexivity|]. split; reflexivity. Qed.

(** C1, the failing input.  Thread t1 has one persisted turn and is idle for
    1000 seconds.  A turn of the sweep pops it and creates its make_summary
    coroutine, which is never awaited: no summary row is stored and the
    platform is never called.  Awaiting the coroutine from the same state
    would have stored the summary. *)
Theorem sweep_summary_never_runs :
  let w := Demo.world [("t1", 0%Q)] Demo.history_t1 Demo.summarizing in
  (exists w',
     sweep_cycle w = Returned tt w' /\
     ONGOING_THREADS w' = [] /\
     never_awaited w' = [make_summary "t1"] /\
     supabase w' = Demo.history_t1 /\
     project w' = Demo.summarizing /\
     log w' = [EvSleep 600]) /\
  (exists w'',
     await Demo.agent_data_id Demo.agent_summary_id Demo.agent_summary_thread_id
           1 (make_summary "t1") w
     = Returned tt w'' /\
     supabase w''
     = Demo.history_t1 ++ [(Some "hands_summary_data", VDict [("summary", VStr "{}")])]).
Proof.
  split; eexists; (split; [vm_compute; reflexivity|]); repeat split; reflexivity.
Qed.

(** ** The run-wait loop *)

Section RunWait.

Context {E : Type} {X : Externals E}.
Implicit Types (w : World E) (e : E).

Lemma same_process_refl w : same_process w w.
Proof. repeat split. Qed.

Lemma same_process_trans {w1 w2 w3} :
  same_process w1 w2 -> same_process w2 w3 -> same_process w1 w3.
Proof.
  unfold same_process. intros (a & b & c & d) (a' & b' & c' & d').
  repeat split; congruence.
Qed.

Lemma busy_wait_no_create {thread_id polls} :
  busy_wait thread_id polls -> runs_created polls = 0%nat.
Proof. induction 1; [reflexivity | exact IHbusy_wait]. Qed.

Lemma busy_wait_length thread_id polls :
  busy_wait thread_id polls -> Nat.Even (List.length polls).
Proof.
  induction 1 as [|rid st polls Hst _ [n Hn]]; [exists 0%nat; reflexivity|].
  exists (S n). simpl. lia.
Qed.

(** The loop, whatever the fuel: it either returns a run that is neither in
    progress nor queued, after polls that all found it busy and one that did
    not, or it is still polling after [fuel] busy polls. *)
Lemma wait_for_latest_run_outcome fuel thread_id : forall latest_run w,
  match wait_for_latest_run fuel thread_id latest_run w with
  | Returned run w' =>
      in_progress_or_queued (run_status run) = false /\
      same_process w w' /\
      exists polls rid,
        busy_wait thread_id polls /\
        List.length polls < 2 * fuel /\
        log w' = log w ++ polls ++ [EvRunGet thread_id rid (run_status run)] /\
        exists status,
          hd_error (polls ++ [EvRunGet thread_id rid (run_status run)])
          = Some (EvRunGet thread_id (run_id latest_run) status)
  | Pending w' =>
      same_process w w' /\
      exists polls,
        busy_wait thread_id polls /\
        List.length polls = 2 * fuel /\
        log w' = log w ++ polls
  | Raised _ _ => False
  end%nat.
Proof.
  induction fuel as [|fuel IH]; intros r w.
  - simpl. split; [apply same_process_refl|].
    exists []. rewrite app_nil_r. repeat split. constructor.
  - simpl. unfold bind at 1. unfold project_runs_get at 1.
    destruct (runs_get thread_id (run_id r) (project w)) as [run e'] eqn:Hget.
    cbn [fst snd].
    destruct (in_progress_or_queued (run_status run)) eqn:Hbusy.
    + unfold bind at 1. unfold asyncio_sleep, modify.
      set (w2 := emit (EvSleep (1 # 2))
                   (emit (EvRunGet thread_id (run_id r) (run_status run))
                      (with_project e' w))).
      specialize (IH run w2).
      destruct (wait_for_latest_run fuel thread_id run w2) as [run' w'|exn w'|w'].
      * destruct IH as (Hdone & Hsame & polls & rid & Hbw & Hlen & Hlog & _).
        split; [exact Hdone|]. split.
        { eapply same_process_trans; [|exact Hsame]. repeat split. }
        exists (EvRunGet thread_id (run_id r) (run_status run) :: EvSleep (1 # 2) :: polls), rid.
        split; [now constructor|]. split; [simpl; lia|]. split.
        { rewrite Hlog. subst w2. simpl. rewrite <- !app_assoc. reflexivity. }
        eexists. reflexivity.
      * exact IH.
      * destruct IH as (Hsame & polls & Hbw & Hlen & Hlog). split.
        { eapply same_process_trans; [|exact Hsame]. repeat split. }
        exists (EvRunGet thread_id (run_id r) (run_status run) :: EvSleep (1 # 2) :: polls).
        split; [now constructor|]. split; [simpl; lia|].
        rewrite Hlog. subst w2. simpl. rewrite <- !app_assoc. reflexivity.
    + unfold ret. split; [exact Hbusy|]. split; [repeat split|].
      exists [], (run_id r). split; [constructor|]. split; [simpl; lia|].
      split; [reflexivity|]. eexists. reflexivity.
Qed.

(** The loop against the answers of the platform: it stalls as long as every
    answer within the fuel is in progress or queued. *)
Lemma wait_for_latest_run_stalls fuel thread_id : forall latest_run w,
  (forall j, (j < fuel)%nat ->
     in_progress_or_queued
       (run_status (nth_poll j thread_id (run_id latest_run) (project w))) = true) ->
  exists w', wait_for_latest_run fuel thread_id latest_run w = Pending w'.
Proof.
  induction fuel as [|fuel IH]; intros r w Hbusy; [eexists; reflexivity|].
  simpl. unfold bind at 1. unfold project_runs_get at 1.
  pose proof (Hbusy 0%nat ltac:(lia)) as H0. simpl in H0.
  destruct (runs_get thread_id (run_id r) (project w)) as [run e'] eqn:Hget.
  cbn [fst snd]. rewrite H0. unfold bind at 1. unfold asyncio_sleep, modify.
  apply IH. intros j Hj. specialize (Hbusy (S j) ltac:(lia)).
  simpl in Hbusy. rewrite Hget in Hbusy. exact Hbusy.
Qed.

(** It returns as soon as the fuel reaches past the first answer outside
    the set. *)
Lemma wait_for_latest_run_returns k thread_id : forall fuel latest_run w,
  (k < fuel)%nat ->
  (forall j, (j < k)%nat ->
     in_progress_or_queued
       (run_status (nth_poll j thread_id (run_id latest_run) (project w))) = true) ->
  in_progress_or_queued
    (run_status (nth_poll k thread_id (run_id latest_run) (project w))) = false ->
  exists w',
    wait_for_latest_run fuel thread_id latest_run w
    = Returned (nth_poll k thread_id (run_id latest_run) (project w)) w'.
Proof.
  induction k as [|k IH]; intros fuel r w Hlt Hbusy Hdone;
    (destruct fuel as [|fuel]; [lia|]);
    simpl; unfold bind at 1; unfold project_runs_get at 1.
  - simpl in Hdone.
    destruct (runs_get thread_id (run_id r) (project w)) as [run e'] eqn:Hget.
    cbn [fst snd]. rewrite Hdone. eexists. reflexivity.
  - pose proof (Hbusy 0%nat ltac:(lia)) as H0. simpl in H0, Hdone.
    destruct (runs_get thread_id (run_id r) (project w)) as [run e'] eqn:Hget.
    cbn [fst snd]. rewrite H0. unfold bind at 1. unfold asyncio_sleep, modify.
    apply IH; [lia| |exact Hdone].
    intros j Hj. specialize (Hbusy (S j) ltac:(lia)).
    simpl in Hbusy. rewrite Hget in Hbusy. exact Hbusy.
Qed.

(** Among the first [n] answers, either all are busy or there is a first one
    that is not. *)
Lemma first_settled (status : nat -> string) (n : nat) :
  (forall j, (j < n)%nat -> in_progress_or_queued (status j) = true) \/
  (exists k, (k < n)%nat /\ in_progress_or_queued (status k) = false /\
             forall j, (j < k)%nat -> in_progress_or_queued (status j) = true).
Proof.
  induction n as [|n [IH|(k & Hk & Hd & Hb)]].
  - left. intros j Hj. lia.
  - destruct (in_progress_or_queued (status n)) eqn:Hn.
    + left. intros j Hj. destruct (Nat.eq_dec j n) as [->|]; [exact Hn | apply IH; lia].
    + right. exists n. repeat split; [lia | exact Hn | exact IH].
  - right. exists k. repeat split; [lia | exact Hd | exact Hb].
Qed.

Lemma create_and_process_returns thread_id agent_id w :
  exists run w',
    project_runs_create_and_process thread_id agent_id w = Returned run w' /\
    same_process w w' /\
    (run, project w') = runs_create_and_process thread_id agent_id (project w) /\
    log w' = log w ++ [EvRunCreateAndProcess thread_id agent_id (run_status run)].
Proof.
  unfold project_runs_create_and_process.
  eexists _, _. split; [reflexivity|]. simpl.
  destruct (runs_create_and_process thread_id agent_id (project w)) as [run e].
  repeat split.
Qed.

(** run_agent, whatever the fuel and the platform. *)
Lemma run_agent_outcome fuel thread_id agent_id w :
  match run_agent fuel thread_id agent_id w with
  | Returned run w' =>
      same_process w w' /\
      exists waited,
        log w' = log w ++ [EvRunsList thread_id] ++ waited
                 ++ [EvRunCreateAndProcess thread_id agent_id (run_status run)] /\
        match runs_list thread_id (project w) with
        | [] => waited = []
        | latest_run :: _ =>
            exists polls rid status,
              waited = polls ++ [EvRunGet thread_id rid status] /\
              busy_wait thread_id polls /\
              in_progress_or_queued status = false /\
              exists status0,
                hd_error waited = Some (EvRunGet thread_id (run_id latest_run) status0)
        end
  | Pending w' =>
      same_process w w' /\
      runs_list thread_id (project w) <> [] /\
      exists polls,
        busy_wait thread_id polls /\
        List.length polls = (2 * fuel)%nat /\
        log w' = log w ++ [EvRunsList thread_id] ++ polls
  | Raised _ _ => False
  end.
Proof.
  unfold run_agent. unfold bind at 1. unfold project_runs_list at 1.
  set (w0 := emit (EvRunsList thread_id) w).
  assert (H0 : same_process w w0) by (repeat split).
  assert (Hl0 : log w0 = log w ++ [EvRunsList thread_id]) by reflexivity.
  destruct (runs_list thread_id (project w)) as [|latest rest].
  - unfold bind at 1. unfold ret at 1. unfold bind at 1.
    destruct (create_and_process_returns thread_id agent_id w0)
      as (run & w' & -> & Hs & _ & Hl).
    unfold ret. split; [exact (same_process_trans H0 Hs)|].
    exists []. split; [|reflexivity].
    rewrite Hl, Hl0, <- app_assoc. reflexivity.
  - unfold bind at 1. unfold bind at 1.
    pose proof (wait_for_latest_run_outcome fuel thread_id latest w0) as Hw.
    destruct (wait_for_latest_run fuel thread_id latest w0) as [r1 w1|exn w1|w1].
    + destruct Hw as (Hdone & Hs1 & polls & rid & Hbw & _ & Hl1 & Hhd).
      unfold ret at 1. unfold bind at 1.
      destruct (create_and_process_returns thread_id agent_id w1)
        as (run & w' & -> & Hs & _ & Hl).
      unfold ret. split.
      { exact (same_process_trans H0 (same_process_trans Hs1 Hs)). }
      exists (polls ++ [EvRunGet thread_id rid (run_status r1)]). split.
      * rewrite Hl, Hl1, Hl0, <- !app_assoc. reflexivity.
      * exists polls, rid, (run_status r1). repeat split; assumption.
    + exact Hw.
    + destruct Hw as (Hs1 & polls & Hbw & Hlen & Hl1).
      split; [exact (same_process_trans H0 Hs1)|].
      split; [discriminate|].
      exists polls. repeat split; [assumption..|].
      rewrite Hl1, Hl0, <- app_assoc. reflexivity.
Qed.

End RunWait.

Section RunWaitClaims.

Context {E : Type} {X : Externals E}.
Implicit Types (w : World E).


(** C9.  For a thread with a prior run, the wait of run_agent ends if and
    only if some poll of that run answers a status that is neither in
    progress nor queued.  There is no timeout: when every poll answers in
    progress or queued, the call is still pending after any number of turns
    of the loop, each turn a poll and a sleep of the same half second, and no
    run has been created. *)
Theorem run_wait_ends_iff_run_settles thread_id agent_id w latest_run rest :
  runs_list thread_id (project w) = latest_run :: rest ->
  let status k :=
    run_status (nth_poll k thread_id (run_id latest_run) (project w)) in
  ((exists fuel run w', run_agent fuel thread_id agent_id w = Returned run w') <->
   (exists k, in_progress_or_queued (status k) = false)) /\
  ((forall k, in_progress_or_queued (status k) = true) ->
   forall fuel,
   exists w' polls,
     run_agent fuel thread_id agent_id w = Pending w' /\
     log w' = log w ++ [EvRunsList thread_id] ++ polls /\
     busy_wait thread_id polls /\
     List.length polls = (2 * fuel)%nat).
Proof.
  intros Hruns status.
  assert (Hunfold : forall fuel,
    run_agent fuel thread_id agent_id w =
    match wait_for_latest_run fuel thread_id latest_run (emit (EvRunsList thread_id) w) with
    | Returned _ w1 =>
        match project_runs_create_and_process thread_id agent_id w1 with
        | Returned run w' => Returned run w'
        | Raised exn w' => Raised exn w'
        | Pending w' => Pending w'
        end
    | Raised exn w1 => Raised exn w1
    | Pending w1 => Pending w1
    end).
  { intros fuel. unfold run_agent. unfold bind at 1. unfold project_runs_list at 1.
    rewrite Hruns. unfold bind.
    destruct (wait_for_latest_run fuel thread_id latest_run _); reflexivity. }
  split; [split|].
  - intros (fuel & run & w' & Hret).
    destruct (first_settled status fuel) as [Hbusy|(k & _ & Hk & _)]; [|eauto].
    exfalso. rewrite Hunfold in Hret.
    destruct (@wait_for_latest_run_stalls E X fuel thread_id latest_run
                (emit (EvRunsList thread_id) w) Hbusy) as (w1 & Hp).
    rewrite Hp in Hret. discriminate.
  - intros (k & Hk).
    destruct (first_settled status (S k)) as [Hbusy|(k0 & Hlt & Hk0 & Hbusy)].
    { rewrite Hbusy in Hk by lia. discriminate. }
    destruct (@wait_for_latest_run_returns E X k0 thread_id (S k0) latest_run
                (emit (EvRunsList thread_id) w) (Nat.lt_succ_diag_r k0) Hbusy Hk0)
      as (w1 & Hw1).
    destruct (create_and_process_returns thread_id agent_id w1) as (run & w' & Hc & _).
    exists (S k0), run, w'. rewrite Hunfold, Hw1, Hc. reflexivity.
  - intros Hbusy fuel.
    pose proof (run_agent_outcome fuel thread_id agent_id w) as H.
    destruct (run_agent fuel thread_id agent_id w) as [run w'|exn w'|w'] eqn:Hrun.
    + exfalso. rewrite Hunfold in Hrun.
      destruct (@wait_for_latest_run_stalls E X fuel thread_id latest_run
                  (emit (EvRunsList thread_id) w) (fun j _ => Hbusy j)) as (w1 & Hp).
      rewrite Hp in Hrun. discriminate.
    + contradiction.
    + destruct H as (_ & _ & polls & Hbw & Hlen & Hlog).
      exists w', polls. repeat split; assumption.
Qed.

End RunWaitClaims.

(** The theorem at a prior run that settles at its third poll. *)
Lemma run_wait_ends_iff_run_settles_witness :
  let w := Demo.world [] [] Demo.busy in
  let status k := run_status (nth_poll k "t1" "run_old" (project w)) in
  ((exists fuel run w', run_agent fuel "t1" "agent_data" w = Returned run w') <->
   (exists k, in_progress_or_queued (status k) = false)) /\
  ((forall k, in_progress_or_queued (status k) = true) ->
   forall fuel,
   exists w' polls,
     run_agent fuel "t1" "agent_data" w = Pending w' /\
     log w' = log w ++ [EvRunsList "t1"] ++ polls /\
     busy_wait "t1" polls /\
     List.length polls = (2 * fuel)%nat).
Proof.
  exact (@run_wait_ends_iff_run_settles Demo.Platform Demo.demo_externals
           "t1" "agent_data" (Demo.world [] [] Demo.busy)
           (mkRun "run_old" "in_progress" "") [] eq_refl).
Defined.

(** A prior run that never settles: after seven turns run_agent is still
    pending, has slept seven times half a second and created no run. *)
Example run_agent_stuck :
  exists w',
    run_agent 7 "t1" "agent_data" (Demo.world [] [] Demo.stuck) = Pending w' /\
    List.length (filter (fun ev => match ev with EvSleep _ => true | _ => false end) (log w'))
    = 7%nat /\
    runs_created (log w') = 0%nat.
Proof. eexists. split; [vm_compute; reflexivity|]. split; reflexivity. Qed.

(** A prior run that settles at its third poll: three turns are enough. *)
Example run_agent_busy :
  exists run w',
    run_agent 3 "t1" "agent_data" (Demo.world [] [] Demo.busy) = Returned run w' /\
    log w' = [EvRunsList "t1";
              EvRunGet "t1" "run_old" "queued"; EvSleep (1 # 2);
              EvRunGet "t1" "run_old" "queued"; EvSleep (1 # 2);
              EvRunGet "t1" "run_old" "completed";
              EvRunCreateAndProcess "t1" "agent_data" "completed"].
Proof. eexists _, _. split; [vm_compute; reflexivity|]. reflexivity. Qed.

(** ** The assistant's reply *)

Section Reply.

Context {E : Type} {X : Externals E}.
Variable agent_data_id : string.
Implicit Types (w : World E) (messages : list ThreadMessage).

Lemma latest_assistant_message_skips thread_id table_name chatbot_type skipped :
  forall messages w,
  Forall (fun m => is_assistant_text m = false) skipped ->
  latest_assistant_message agent_data_id thread_id table_name chatbot_type (skipped ++ messages) w
  = latest_assistant_message agent_data_id thread_id table_name chatbot_type messages w.
Proof.
  induction skipped as [|m skipped IH]; intros messages w Hall; [reflexivity|].
  inversion Hall as [|? ? Hm Hrest]; subst. simpl. rewrite Hm. now apply IH.
Qed.

Lemma latest_assistant_message_none thread_id table_name chatbot_type messages w :
  Forall (fun m => is_assistant_text m = false) messages ->
  latest_assistant_message agent_data_id thread_id table_name chatbot_type messages w
  = Returned (assistant_reply agent_data_id thread_id (VStr "No response")) w.
Proof.
  intros Hall.
  rewrite <- (app_nil_r messages), latest_assistant_message_skips by exact Hall.
  reflexivity.
Qed.

Lemma latest_assistant_message_plain thread_id table_name chatbot_type
    skipped message older w :
  Forall (fun m => is_assistant_text m = false) skipped ->
  is_assistant_text message = true ->
  extract_json (remove_source (last (text_messages message) "")) = None ->
  let text := remove_source (last (text_messages message) "") in
  latest_assistant_message agent_data_id thread_id table_name chatbot_type
    (skipped ++ message :: older) w
  = Returned (assistant_reply agent_data_id thread_id (VStr text))
      (with_supabase
         (supabase w ++ [(table_name, assistant_row agent_data_id thread_id (VStr text))]) w).
Proof.
  intros Hall Hm Hjson text.
  rewrite latest_assistant_message_skips by exact Hall.
  simpl. rewrite Hm, Hjson. reflexivity.
Qed.

End Reply.

(** ** The handlers around their agent run *)

Section HandlerSplit.

Context {E : Type} {X : Externals E}.
Variable agent_data_id : string.
Implicit Types (w : World E).

(** give_thread_id is its prelude, the agent run, and what follows the run. *)
Lemma give_thread_id_split fuel user_input w :
  give_thread_id agent_data_id fuel user_input w
  = (thread <- start_prelude agent_data_id user_input ;;
     run <- run_agent fuel thread agent_data_id ;;
     match user_input with
     | None => ret (VDict [("thread_id", VStr thread)])
     | Some _ =>
         if String.eqb (run_status run) "failed" then ret (run_failed run)
         else
           chatbot_message <-
             insert_chatbot_message agent_data_id thread (Some "chatbot_data") "data" VNone ;;
           ret chatbot_message
     end) w.
Proof.
  destruct user_input;
    cbv beta iota zeta delta [give_thread_id start_prelude bind ret gets modify
                                create_thread make_message supabase_insert time_time];
    reflexivity.
Qed.

(** So is chat. *)
Lemma chat_split fuel user_input user_thread_id w :
  chat agent_data_id fuel user_input user_thread_id w
  = (thread <- chat_prelude agent_data_id user_input user_thread_id ;;
     run <- run_agent fuel thread agent_data_id ;;
     if String.eqb (run_status run) "failed" then ret (run_failed run)
     else
       chatbot_message <-
         insert_chatbot_message agent_data_id thread (Some "chatbot_data") "data" VNone ;;
       msg <- await_try_to_make_an_appointment chatbot_message ;;
       new_message <- subscript msg "message" ;;
       old_message <- subscript chatbot_message "message" ;;
       if negb (py_eq new_message old_message)
       then insert_chatbot_message agent_data_id thread None "data" msg ;;; ret msg
       else ret msg) w.
Proof.
  cbv beta iota zeta delta [chat chat_prelude bind ret gets modify
                              make_message supabase_insert time_time].
  reflexivity.
Qed.

(** What the prelude of POST /start leaves behind. *)
Lemma start_prelude_returns user_input w :
  exists w1,
    start_prelude agent_data_id user_input w
    = Returned (fst (threads_create (project w))) w1 /\
    let thread := fst (threads_create (project w)) in
    let seed :=
      EvMessageCreate thread "user"
        (date_message (get_today_date (snd (threads_create (project w))))) in
    never_awaited w1 = never_awaited w /\
    match user_input with
    | None =>
        supabase w1 = supabase w /\
        ONGOING_THREADS w1 = ONGOING_THREADS w /\
        log w1 = log w ++ [EvThreadCreate thread; seed]
    | Some message =>
        supabase w1
        = supabase w ++ [(Some "chatbot_data", user_row agent_data_id thread message)] /\
        ONGOING_THREADS w1
        = dict_set thread (wall_clock (time_calls w)) (ONGOING_THREADS w) /\
        log w1 = log w ++ [EvThreadCreate thread; seed;
                           EvMessageCreate thread "user" message]
    end.
Proof.
  destruct user_input; eexists; (split; [reflexivity|]); simpl;
    rewrite <- ?app_assoc; repeat split.
Qed.

(** What the prelude of POST /chat leaves behind. *)
Lemma chat_prelude_returns user_input user_thread_id w :
  exists w1,
    chat_prelude agent_data_id user_input user_thread_id w
    = Returned user_thread_id w1 /\
    never_awaited w1 = never_awaited w /\
    supabase w1
    = supabase w
      ++ [(Some "chatbot_data", user_row agent_data_id user_thread_id user_input)] /\
    ONGOING_THREADS w1
    = dict_set user_thread_id (wall_clock (time_calls w)) (ONGOING_THREADS w) /\
    log w1 = log w ++ [EvMessageCreate user_thread_id "user" user_input].
Proof.
  eexists. split; [reflexivity|]. simpl. repeat split.
Qed.

End HandlerSplit.

Section ReplyClaims.

Context {E : Type} {X : Externals E}.
Variable agent_data_id : string.
Implicit Types (w : World E) (messages : list ThreadMessage).

(** With no [msg], insert_chatbot_message always returns, and for the data
    agent what it returns is a reply of the assistant. *)
Lemma insert_chatbot_message_data_returns thread_id table_name w :
  exists message w',
    insert_chatbot_message agent_data_id thread_id table_name "data" VNone w
    = Returned (assistant_reply agent_data_id thread_id message) w' /\
    log w' = log w ++ [EvMessagesList thread_id] /\
    project w' = project w.
Proof.
  cbv beta iota delta [insert_chatbot_message truthy bind get_message_list].
  set (w0 := emit (EvMessagesList thread_id) w).
  assert (Hl : log w0 = log w ++ [EvMessagesList thread_id]) by reflexivity.
  assert (Hp : project w0 = project w) by reflexivity.
  clearbody w0. revert w0 Hl Hp.
  induction (rev (messages_list thread_id (project w))) as [|m ms IH]; intros w0 Hl Hp.
  - eexists _, w0. split; [reflexivity | split; assumption].
  - simpl. destruct (is_assistant_text m); [|apply IH; assumption].
    destruct (extract_json _) as [j|].
    + simpl. eexists _, w0. split; [reflexivity | split; assumption].
    + unfold bind, supabase_insert, modify, ret.
      eexists _, _. split; [reflexivity|]. split; assumption.
Qed.

(** C8.  When [msg] is not given, the latest assistant message with text is
    [message] and extract_json raises ValueError on its text (the last text
    part, its source marks removed), insert_chatbot_message inserts the row
    {role: assistant, thread_id, message: the text, agent_id} into the table
    it was given, inserts nothing else, and returns a dict whose message is
    that text. *)
Theorem plain_text_reply_is_inserted thread_id table_name chatbot_type msg w
    older message newer :
  truthy msg = false ->
  messages_list thread_id (project w) = older ++ message :: newer ->
  is_assistant_text message = true ->
  Forall (fun m => is_assistant_text m = false) newer ->
  extract_json (remove_source (last (text_messages message) "")) = None ->
  let text := remove_source (last (text_messages message) "") in
  exists w',
    insert_chatbot_message agent_data_id thread_id table_name chatbot_type msg w
    = Returned
        (VDict [("role", VStr "assistant"); ("message", VStr text);
                ("thread_id", VStr thread_id); ("agent_id", VStr agent_data_id)])
        w' /\
    supabase w'
    = supabase w
      ++ [(table_name,
           VDict [("role", VStr "assistant"); ("thread_id", VStr thread_id);
                  ("message", VStr text); ("agent_id", VStr agent_data_id)])] /\
    ONGOING_THREADS w' = ONGOING_THREADS w /\
    project w' = project w /\
    log w' = log w ++ [EvMessagesList thread_id].
Proof.
  intros Hmsg Hlist Hm Hnewer Hjson text.
  unfold insert_chatbot_message. rewrite Hmsg.
  unfold bind, get_message_list. rewrite Hlist.
  rewrite rev_app_distr. simpl rev. rewrite <- app_assoc. simpl app.
  rewrite (@latest_assistant_message_plain E X agent_data_id thread_id table_name
             chatbot_type (rev newer) message (rev older) _
             (Forall_rev Hnewer) Hm Hjson).
  eexists. split; [reflexivity|]. repeat split.
Qed.

(** C10.  When [msg] is not given and no message of the thread is an
    assistant message with text, insert_chatbot_message inserts no row and
    returns {role: assistant, message: No response, thread_id, agent_id}.
    POST /start with a message, after a run that did not fail, returns that
    dict to the caller; POST /chat hands it to the appointment helper and
    returns it when the helper leaves it as it is. *)
Theorem no_assistant_text_gives_no_response thread_id table_name chatbot_type msg w :
  truthy msg = false ->
  Forall (fun m => is_assistant_text m = false) (messages_list thread_id (project w)) ->
  let no_response :=
    VDict [("role", VStr "assistant"); ("message", VStr "No response");
           ("thread_id", VStr thread_id); ("agent_id", VStr agent_data_id)] in
  let w' := emit (EvMessagesList thread_id) w in
  insert_chatbot_message agent_data_id thread_id table_name chatbot_type msg w
  = Returned no_response w' /\
  supabase w' = supabase w /\
  (forall fuel user_input w0 w1 run,
     start_prelude agent_data_id (Some user_input) w0 = Returned thread_id w1 ->
     run_agent fuel thread_id agent_data_id w1 = Returned run w ->
     run_status run <> "failed" ->
     app agent_data_id fuel (PostStart (Some user_input)) w0 = Returned no_response w') /\
  (forall fuel user_input w0 w1 run,
     chat_prelude agent_data_id user_input thread_id w0 = Returned thread_id w1 ->
     run_agent fuel thread_id agent_data_id w1 = Returned run w ->
     run_status run <> "failed" ->
     fst (try_to_make_an_appointment no_response (project w')) = no_response ->
     exists w'',
       app agent_data_id fuel (PostChat user_input thread_id) w0
       = Returned no_response w'' /\
       supabase w'' = supabase w).
Proof.
  intros Hmsg Hnone no_response w'.
  assert (Hins : forall table ctype,
    insert_chatbot_message agent_data_id thread_id table ctype VNone w
    = Returned no_response w').
  { intros table ctype.
    cbv beta iota delta [insert_chatbot_message truthy bind get_message_list].
    now rewrite latest_assistant_message_none by now apply Forall_rev. }
  split; [|split; [reflexivity|split]].
  - unfold insert_chatbot_message. rewrite Hmsg.
    unfold bind, get_message_list.
    now rewrite latest_assistant_message_none by now apply Forall_rev.
  - intros fuel user_input w0 w1 run Hpre Hrun Hok.
    apply String.eqb_neq in Hok.
    unfold app. rewrite give_thread_id_split.
    unfold bind at 1. rewrite Hpre. unfold bind at 1. rewrite Hrun, Hok.
    unfold bind. rewrite Hins. reflexivity.
  - intros fuel user_input w0 w1 run Hpre Hrun Hok Hsame.
    apply String.eqb_neq in Hok.
    unfold app. rewrite chat_split.
    unfold bind at 1. rewrite Hpre. unfold bind at 1. rewrite Hrun, Hok.
    unfold bind at 1. rewrite Hins.
    unfold bind at 1. unfold await_try_to_make_an_appointment at 1. cbv zeta.
    rewrite Hsame. eexists. split; reflexivity.
Qed.

End ReplyClaims.

(** ** The handlers *)

Section HandlerClaims.

Context {E : Type} {X : Externals E}.
Variable agent_data_id : string.
Implicit Types (w : World E).

Lemma runs_created_app (l1 l2 : list Event) :
  runs_created (l1 ++ l2) = (runs_created l1 + runs_created l2)%nat.
Proof. unfold runs_created. now rewrite filter_app, length_app. Qed.

(** A call of run_agent that returns has created exactly one run and has
    touched neither the map nor the store. *)
Lemma run_agent_creates_one {fuel thread_id agent_id w run w'} :
  run_agent fuel thread_id agent_id w = Returned run w' ->
  same_process w w' /\
  runs_created (log w') = S (runs_created (log w)) /\
  exists waited,
    log w' = log w ++ EvRunsList thread_id :: waited
             ++ [EvRunCreateAndProcess thread_id agent_id (run_status run)].
Proof.
  intros Hrun. pose proof (run_agent_outcome fuel thread_id agent_id w) as H.
  rewrite Hrun in H. destruct H as (Hsame & waited & Hlog & Hshape).
  split; [exact Hsame|]. split; [|exists waited; exact Hlog].
  assert (Hw : runs_created waited = 0%nat).
  { destruct (runs_list thread_id (project w)).
    - now subst.
    - destruct Hshape as (polls & rid & st & -> & Hbw & _).
      rewrite runs_created_app, (busy_wait_no_create Hbw). reflexivity. }
  rewrite Hlog, !runs_created_app, Hw.
  change (runs_created [EvRunsList thread_id]) with 0%nat.
  change (runs_created [EvRunCreateAndProcess thread_id agent_id (run_status run)])
    with 1%nat.
  lia.
Qed.


(** POST /start with a null message, once its agent run has returned: the
    handler returns {thread_id} with the id of the thread it has just
    created on the platform, and the store holds the rows it held before: no
    row was inserted. *)
Theorem start_without_message_inserts_no_row fuel w thread w1 run w2 :
  start_prelude agent_data_id None w = Returned thread w1 ->
  run_agent fuel thread agent_data_id w1 = Returned run w2 ->
  app agent_data_id fuel (PostStart None) w
  = Returned (VDict [("thread_id", VStr thread)]) w2 /\
  supabase w2 = supabase w /\
  thread = fst (threads_create (project w)) /\
  exists rest, log w2 = log w ++ EvThreadCreate thread :: rest.
Proof.
  intros Hpre Hrun.
  destruct (start_prelude_returns agent_data_id None w) as (w1' & Hpre' & _ & Hs & _ & Hl).
  rewrite Hpre in Hpre'. injection Hpre' as Ht <-.
  destruct (run_agent_creates_one Hrun) as ((_ & Hs2 & _) & _ & waited & Hl2).
  split; [|split; [congruence|split; [exact Ht|]]].
  - unfold app. rewrite give_thread_id_split.
    unfold bind at 1. rewrite Hpre. unfold bind. rewrite Hrun. reflexivity.
  - eexists. rewrite Hl2, Hl, <- Ht, <- app_assoc. reflexivity.
Qed.

(** POST /start once its agent run has returned, with or without a message:
    the handler has created a thread and posted the date message on it, and
    exactly one run was created.  With a null message the handler then
    returns {thread_id}; with a message it returns the failure payload when
    the run failed and otherwise the reply of the assistant that
    insert_chatbot_message extracts. *)
Theorem start_runs_agent_once fuel user_input w thread w1 run w2 :
  start_prelude agent_data_id user_input w = Returned thread w1 ->
  run_agent fuel thread agent_data_id w1 = Returned run w2 ->
  (exists rest,
     log w1
     = log w ++ EvThreadCreate thread
         :: EvMessageCreate thread "user"
              (date_message (get_today_date (snd (threads_create (project w)))))
         :: rest /\
     runs_created rest = 0%nat) /\
  runs_created (log w2) = S (runs_created (log w)) /\
  In (EvRunCreateAndProcess thread agent_data_id (run_status run)) (log w2) /\
  match user_input with
  | None =>
      app agent_data_id fuel (PostStart None) w
      = Returned (VDict [("thread_id", VStr thread)]) w2
  | Some message =>
      (run_status run = "failed" ->
       app agent_data_id fuel (PostStart (Some message)) w
       = Returned (run_failed run) w2) /\
      (run_status run <> "failed" ->
       exists reply w3,
         app agent_data_id fuel (PostStart (Some message)) w
         = Returned (assistant_reply agent_data_id thread reply) w3 /\
         insert_chatbot_message agent_data_id thread (Some "chatbot_data") "data" VNone w2
         = Returned (assistant_reply agent_data_id thread reply) w3 /\
         runs_created (log w3) = S (runs_created (log w)))
  end.
Proof.
  intros Hpre Hrun.
  destruct (start_prelude_returns agent_data_id user_input w) as (w1' & Hpre' & _ & Hshape).
  rewrite Hpre in Hpre'. injection Hpre' as Ht <-.
  destruct (run_agent_creates_one Hrun) as (_ & Hone & waited & Hl2).
  assert (Hsplit : forall k,
    (thread0 <- start_prelude agent_data_id user_input ;;
     run0 <- run_agent fuel thread0 agent_data_id ;; k thread0 run0) w
    = k thread run w2 :> outcome E value).
  { intros k. unfold bind at 1. rewrite Hpre. unfold bind at 1. now rewrite Hrun. }
  assert (Hlog1 : exists rest,
    log w1
    = log w ++ EvThreadCreate thread
        :: EvMessageCreate thread "user"
             (date_message (get_today_date (snd (threads_create (project w)))))
        :: rest /\
    runs_created rest = 0%nat).
  { destruct user_input; destruct Hshape as (_ & _ & Hl); rewrite Hl, <- Ht;
      eexists; split; reflexivity. }
  assert (H1 : runs_created (log w1) = runs_created (log w)).
  { destruct Hlog1 as (rest & -> & Hrest).
    rewrite runs_created_app.
    change (runs_created (EvThreadCreate thread :: ?[m] :: rest)) with (runs_created rest).
    lia. }
  split; [exact Hlog1|]. split; [congruence|]. split.
  { rewrite Hl2. apply in_or_app. right. right. apply in_or_app. right. now left. }
  unfold app. destruct user_input as [message|].
  - split.
    + intros Hfailed. rewrite give_thread_id_split, Hsplit, Hfailed. reflexivity.
    + intros Hok. apply String.eqb_neq in Hok.
      destruct (insert_chatbot_message_data_returns agent_data_id thread
                  (Some "chatbot_data") w2) as (reply & w3 & Hins & Hl3 & _).
      exists reply, w3. split; [|split; [exact Hins|]].
      * rewrite give_thread_id_split, Hsplit, Hok. unfold bind. now rewrite Hins.
      * rewrite Hl3, runs_created_app.
        change (runs_created [EvMessagesList thread]) with 0%nat. lia.
  - rewrite give_thread_id_split, Hsplit. reflexivity.
Qed.

(** C7, as the code has it.  When the agent run of a POST /start with a
    message, or of a POST /chat, comes back failed, the handler returns
    {role: assistant, message: Run failed: <last error>} as an ordinary
    result, and the only row it has stored is the user's.  A POST /start
    with a null message does not look at the run: it returns {thread_id}
    and has stored nothing. *)
Theorem failed_run_is_reported fuel request w thread w1 run w2 :
  prelude agent_data_id request w = Returned thread w1 ->
  run_agent fuel thread agent_data_id w1 = Returned run w2 ->
  run_status run = "failed" ->
  match request with
  | PostStart None =>
      app agent_data_id fuel request w
      = Returned (VDict [("thread_id", VStr thread)]) w2 /\
      supabase w2 = supabase w
  | PostStart (Some message) | PostChat message _ =>
      app agent_data_id fuel request w
      = Returned
          (VDict [("role", VStr "assistant");
                  ("message", VStr ("Run failed: " ++ run_last_error run)%string)])
          w2 /\
      supabase w2
      = supabase w ++ [(Some "chatbot_data", user_row agent_data_id thread message)]
  | PostEndConversation _ => True
  end.
Proof.
  intros Hpre Hrun Hfailed.
  destruct (run_agent_creates_one Hrun) as ((_ & Hs2 & _) & _).
  destruct request as [[message|]|message thread_id|thread_id]; [| | |exact I];
    unfold app; simpl in Hpre.
  - destruct (start_prelude_returns agent_data_id (Some message) w)
      as (w1' & Hpre' & _ & Hs & _).
    rewrite Hpre in Hpre'. injection Hpre' as Ht <-. split.
    + rewrite give_thread_id_split. unfold bind at 1. rewrite Hpre.
      unfold bind at 1. rewrite Hrun, Hfailed. reflexivity.
    + rewrite Hs2, Hs, <- Ht. reflexivity.
  - destruct (start_prelude_returns agent_data_id None w) as (w1' & Hpre' & _ & Hs & _).
    rewrite Hpre in Hpre'. injection Hpre' as Ht <-. split.
    + rewrite give_thread_id_split. unfold bind at 1. rewrite Hpre.
      unfold bind. rewrite Hrun. reflexivity.
    + congruence.
  - destruct (chat_prelude_returns agent_data_id message thread_id w)
      as (w1' & Hpre' & _ & Hs & _).
    rewrite Hpre in Hpre'. injection Hpre' as Ht <-. split.
    + rewrite chat_split. unfold bind at 1. rewrite Hpre.
      unfold bind at 1. rewrite Hrun, Hfailed. reflexivity.
    + rewrite Hs2, Hs, <- Ht. reflexivity.
Qed.

(** POST /end_conversation: the thread is popped from the map, whether it was
    there or not; every other thread keeps its timestamp; the store, the
    platform and the log are what they were; one make_summary coroutine is
    created and not awaited. *)
Lemma end_conversation_pops thread_id w :
  NoDup (dict_keys (ONGOING_THREADS w)) ->
  exists w',
    end_conversation thread_id w = Returned VNone w' /\
    dict_get thread_id (ONGOING_THREADS w') = None /\
    (forall other, other <> thread_id ->
       dict_get other (ONGOING_THREADS w') = dict_get other (ONGOING_THREADS w)) /\
    supabase w' = supabase w /\ project w' = project w /\ log w' = log w /\
    never_awaited w' = never_awaited w ++ [make_summary thread_id].
Proof.
  intros Hnd. eexists. split; [reflexivity|]. simpl.
  split; [now apply dict_get_pop_same|].
  split; [|repeat split].
  intros other Hne. apply dict_get_pop_other. congruence.
Qed.

End HandlerClaims.

Section Summary.

Context {E : Type} {X : Externals E}.
Variables agent_data_id agent_summary_id agent_summary_thread_id : string.
Implicit Types (w : World E).

(** The body of make_summary on a conversation without persisted rows: it
    posts nothing, runs nothing and stores nothing. *)
Lemma make_summary_body_empty_history fuel thread_id w :
  supabase_select_conversation thread_id agent_data_id w = Returned [] w ->
  make_summary_body agent_data_id agent_summary_id agent_summary_thread_id
    fuel thread_id w
  = Returned tt w.
Proof.
  intros Hsel. unfold make_summary_body. unfold bind at 1. rewrite Hsel. reflexivity.
Qed.

(** On a conversation with a persisted row the body does post the
    conversation to the summary thread. *)
Lemma make_summary_body_posts fuel thread_id w row rows :
  supabase_select_conversation thread_id agent_data_id w = Returned (row :: rows) w ->
  exists conversation,
    conversation <> "" /\
    make_summary_body agent_data_id agent_summary_id agent_summary_thread_id
      fuel thread_id w
    = (make_message agent_summary_thread_id "user" conversation ;;;
       run <- run_agent fuel agent_summary_thread_id agent_summary_id ;;
       insert_chatbot_message agent_data_id agent_summary_thread_id
         (Some "hands_summary_data") "summary" VNone ;;;
       ret tt) w.
Proof.
  intros Hsel.
  assert (Hne : forall (piece : value * value -> string),
    piece row <> "" -> String.concat "" (map piece (row :: rows)) <> "").
  { intros piece Hp. simpl. destruct (map piece rows); [exact Hp|].
    destruct (piece row); [contradiction | discriminate]. }
  eexists. split.
  - apply Hne with
      (piece := fun message : value * value =>
         (py_str (fst message) ++ ": " ++ py_str (snd message) ++ newline)%string).
    destruct (py_str (fst row)); discriminate.
  - unfold make_summary_body. unfold bind at 1. rewrite Hsel. cbv zeta.
    match goal with
    | |- (if negb (String.eqb ?c "") then _ else _) _ = _ =>
        destruct (String.eqb c "") eqn:Hc
    end; [|reflexivity].
    exfalso. apply String.eqb_eq in Hc. revert Hc. apply Hne.
    destruct (py_str (fst row)); discriminate.
Qed.

End Summary.

(** ** The claims on the small platform *)

(** The theorem on a message whose text is not JSON: the assistant's last
    text part is stored and returned. *)
Lemma plain_text_reply_is_inserted_witness :
  exists w',
    insert_chatbot_message "agent_data" "t1" (Some "chatbot_data") "data" VNone
      (Demo.world [] [] Demo.answered)
    = Returned
        (VDict [("role", VStr "assistant"); ("message", VStr "Hallo!");
                ("thread_id", VStr "t1"); ("agent_id", VStr "agent_data")])
        w' /\
    supabase w'
    = [(Some "chatbot_data",
        VDict [("role", VStr "assistant"); ("thread_id", VStr "t1");
               ("message", VStr "Hallo!"); ("agent_id", VStr "agent_data")])] /\
    ONGOING_THREADS w' = [] /\
    project w' = Demo.answered /\
    log w' = [EvMessagesList "t1"].
Proof.
  refine (@plain_text_reply_is_inserted Demo.Platform Demo.demo_externals
            "agent_data" "t1" (Some "chatbot_data") "data" VNone
            (Demo.world [] [] Demo.answered)
            [mkMessage "user" ["hoi"]]
            (mkMessage "assistant" ["Goedendag"; "Hallo!"])
            [mkMessage "user" ["nog iets"]]
            _ _ _ _ _);
    [reflexivity | reflexivity | reflexivity | | reflexivity].
  constructor; [reflexivity | constructor].
Defined.

(** The theorem on threads that have messages but no assistant text.  The
    agent answers without text: after POST /start with a message the new
    thread holds the date message, the user's message and an assistant
    message with no text part; after POST /chat thread t1 holds the user's
    message and such an assistant message.  In both, insert_chatbot_message
    stores nothing and the caller gets No response. *)
Lemma no_assistant_text_gives_no_response_witness :
  let w0 := Demo.world [] [] Demo.mute in
  let ws :=
    outcome_world
      (run_agent 1 "thread_new" "agent_data"
         (outcome_world (start_prelude "agent_data" (Some "hoi") w0))) in
  let wc :=
    outcome_world
      (run_agent 1 "t1" "agent_data"
         (outcome_world (chat_prelude "agent_data" "hoi" "t1" w0))) in
  (messages_list "thread_new" (project ws)
   = [mkMessage "user"
        ["System message: Vandaag is maandag, 3 november, 2026. Gebruik deze datum altijd als referentie"];
      mkMessage "user" ["hoi"];
      mkMessage "assistant" []] /\
   insert_chatbot_message "agent_data" "thread_new" (Some "chatbot_data") "data" VNone ws
   = Returned
       (VDict [("role", VStr "assistant"); ("message", VStr "No response");
               ("thread_id", VStr "thread_new"); ("agent_id", VStr "agent_data")])
       (emit (EvMessagesList "thread_new") ws) /\
   supabase (emit (EvMessagesList "thread_new") ws) = supabase ws /\
   app "agent_data" 1 (PostStart (Some "hoi")) w0
   = Returned
       (VDict [("role", VStr "assistant"); ("message", VStr "No response");
               ("thread_id", VStr "thread_new"); ("agent_id", VStr "agent_data")])
       (emit (EvMessagesList "thread_new") ws)) /\
  (messages_list "t1" (project wc)
   = [mkMessage "user" ["hoi"]; mkMessage "assistant" []] /\
   exists w'',
     app "agent_data" 1 (PostChat "hoi" "t1") w0
     = Returned
         (VDict [("role", VStr "assistant"); ("message", VStr "No response");
                 ("thread_id", VStr "t1"); ("agent_id", VStr "agent_data")])
         w'' /\
     supabase w'' = supabase wc).
Proof.
  intros w0 ws wc.
  assert (Hstart : Forall (fun m => is_assistant_text m = false)
                     (messages_list "thread_new" (project ws)))
    by (vm_compute; repeat constructor).
  assert (Hchat : Forall (fun m => is_assistant_text m = false)
                    (messages_list "t1" (project wc)))
    by (vm_compute; repeat constructor).
  destruct (@no_assistant_text_gives_no_response Demo.Platform Demo.demo_externals
              "agent_data" "thread_new" (Some "chatbot_data") "data" VNone ws
              eq_refl Hstart) as (Hs1 & Hs2 & Hs3 & _).
  destruct (@no_assistant_text_gives_no_response Demo.Platform Demo.demo_externals
              "agent_data" "t1" (Some "chatbot_data") "data" VNone wc
              eq_refl Hchat) as (_ & _ & _ & Hc4).
  split.
  - split; [vm_compute; reflexivity|]. split; [exact Hs1|]. split; [exact Hs2|].
    apply (Hs3 1%nat "hoi" w0
             (outcome_world (start_prelude "agent_data" (Some "hoi") w0))
             (mkRun "run_new" "completed" "rate_limit_exceeded"));
      [vm_compute; reflexivity | vm_compute; reflexivity | discriminate].
  - split; [vm_compute; reflexivity|].
    apply (Hc4 1%nat "hoi" w0
             (outcome_world (chat_prelude "agent_data" "hoi" "t1" w0))
             (mkRun "run_new" "completed" "rate_limit_exceeded"));
      [vm_compute; reflexivity | vm_compute; reflexivity | discriminate
      | vm_compute; reflexivity].
Defined.

(** The agent answers without text: POST /start with a message and POST
    /chat both answer No response, and only the user's row is stored. *)
Example start_and_chat_no_response :
  (exists w',
     app "agent_data" 1 (PostStart (Some "hoi")) (Demo.world [] [] Demo.mute)
     = Returned (assistant_reply "agent_data" "thread_new" (VStr "No response")) w' /\
     supabase w' = [(Some "chatbot_data", user_row "agent_data" "thread_new" "hoi")]) /\
  (exists w',
     app "agent_data" 1 (PostChat "hoi" "t1") (Demo.world [] [] Demo.mute)
     = Returned (assistant_reply "agent_data" "t1" (VStr "No response")) w' /\
     supabase w' = [(Some "chatbot_data", user_row "agent_data" "t1" "hoi")]).
Proof.
  split; eexists; (split; [vm_compute; reflexivity|]); reflexivity.
Qed.

(** POST /start with a null message and a prior run that settles at its
    third poll. *)
Lemma start_without_message_inserts_no_row_witness :
  exists w1 run w2,
    start_prelude "agent_data" None (Demo.world [] Demo.history_t1 Demo.busy)
    = Returned "thread_new" w1 /\
    run_agent 3 "thread_new" "agent_data" w1 = Returned run w2 /\
    app "agent_data" 3 (PostStart None) (Demo.world [] Demo.history_t1 Demo.busy)
    = Returned (VDict [("thread_id", VStr "thread_new")]) w2 /\
    supabase w2 = Demo.history_t1.
Proof.
  eexists _, _, _.
  split; [vm_compute; reflexivity|]. split; [vm_compute; reflexivity|].
  refine (let H := @start_without_message_inserts_no_row Demo.Platform Demo.demo_externals
                     "agent_data" 3 (Demo.world [] Demo.history_t1 Demo.busy)
                     "thread_new" _ _ _ _ _ in conj (proj1 H) (proj1 (proj2 H)));
    vm_compute; reflexivity.
Defined.


(** POST /start with a message and a prior run that settles at its third
    poll. *)
Lemma start_runs_agent_once_witness :
  exists w1 run w2,
    start_prelude "agent_data" (Some "hoi") (Demo.world [] [] Demo.busy)
    = Returned "thread_new" w1 /\
    run_agent 3 "thread_new" "agent_data" w1 = Returned run w2 /\
    runs_created (log w2) = 1%nat /\
    In (EvRunCreateAndProcess "thread_new" "agent_data" (run_status run)) (log w2).
Proof.
  eexists _, _, _.
  split; [vm_compute; reflexivity|]. split; [vm_compute; reflexivity|].
  refine (let H := @start_runs_agent_once Demo.Platform Demo.demo_externals
                     "agent_data" 3 (Some "hoi") (Demo.world [] [] Demo.busy)
                     "thread_new" _ _ _ _ _ in
          conj (proj1 (proj2 H)) (proj1 (proj2 (proj2 H))));
    vm_compute; reflexivity.
Defined.

(** C7, the claim at a null message.  The agent's run fails; POST /start
    with a null message returns {thread_id}, a payload without message and
    without the run's error. *)
Lemma start_without_message_hides_failed_run :
  exists w',
    app "agent_data" 1 (PostStart None) (Demo.world [] [] Demo.failing)
    = Returned (VDict [("thread_id", VStr "thread_new")]) w' /\
    In (EvRunCreateAndProcess "thread_new" "agent_data" "failed") (log w') /\
    dict_get "message" [("thread_id", VStr "thread_new")] = None /\
    VDict [("thread_id", VStr "thread_new")]
    <> run_failed (mkRun "run_new" "failed" "rate_limit_exceeded").
Proof.
  eexists. split; [vm_compute; reflexivity|].
  split; [simpl; tauto|]. split; [reflexivity | discriminate].
Qed.

(** The amended C7 on POST /chat with a failing run. *)
Lemma failed_run_is_reported_witness :
  exists w1 run w2,
    prelude "agent_data" (PostChat "hoi" "t1") (Demo.world [] [] Demo.failing)
    = Returned "t1" w1 /\
    run_agent 1 "t1" "agent_data" w1 = Returned run w2 /\
    run_status run = "failed" /\
    app "agent_data" 1 (PostChat "hoi" "t1") (Demo.world [] [] Demo.failing)
    = Returned
        (VDict [("role", VStr "assistant");
                ("message", VStr ("Run failed: " ++ run_last_error run)%string)])
        w2 /\
    supabase w2
    = supabase (Demo.world [] [] Demo.failing)
      ++ [(Some "chatbot_data", user_row "agent_data" "t1" "hoi")].
Proof.
  eexists _, _, _.
  split; [vm_compute; reflexivity|]. split; [vm_compute; reflexivity|].
  split; [vm_compute; reflexivity|].
  refine (@failed_run_is_reported Demo.Platform Demo.demo_externals
            "agent_data" 1 (PostChat "hoi" "t1") (Demo.world [] [] Demo.failing)
            "t1" _ _ _ _ _ _);
    vm_compute; reflexivity.
Defined.

(** The same on POST /start with a message. *)
Example start_with_message_reports_failed_run :
  exists w',
    app "agent_data" 1 (PostStart (Some "hoi")) (Demo.world [] [] Demo.failing)
    = Returned
        (VDict [("role", VStr "assistant");
                ("message", VStr "Run failed: rate_limit_exceeded")]) w' /\
    supabase w' = [(Some "chatbot_data", user_row "agent_data" "thread_new" "hoi")].
Proof. eexists. split; [vm_compute; reflexivity|]. reflexivity. Qed.

(** C6, the failing input.  Thread t1 has one persisted turn and is in the
    map.  POST /end_conversation pops it and creates its make_summary
    coroutine, which is never awaited: no summary row is stored, nothing is
    posted to the summary thread and no run is created.  Awaiting the
    coroutine from the state the handler leaves would have stored the
    summary. *)
Theorem end_conversation_summary_never_runs :
  let w := Demo.world [("t1", 0%Q)] Demo.history_t1 Demo.summarizing in
  exists w',
    app "agent_data" 1 (PostEndConversation "t1") w = Returned VNone w' /\
    ONGOING_THREADS w' = [] /\
    never_awaited w' = [make_summary "t1"] /\
    supabase w' = Demo.history_t1 /\
    project w' = Demo.summarizing /\
    log w' = [] /\
    exists w'',
      await Demo.agent_data_id Demo.agent_summary_id Demo.agent_summary_thread_id
            1 (make_summary "t1") w'
      = Returned tt w'' /\
      supabase w''
      = Demo.history_t1
        ++ [(Some "hands_summary_data", VDict [("summary", VStr "{}")])].
Proof.
  eexists. split; [vm_compute; reflexivity|]. repeat split.
  eexists. split; [vm_compute; reflexivity|]. reflexivity.
Qed.

(** Ending a conversation that was never in the map, with no persisted
    turn: the map is left as it is, and the body of make_summary, had it
    been awaited, would have done nothing. *)
Example end_conversation_unknown_thread :
  let w := Demo.world [("t2", 5%Q)] Demo.history_t1 Demo.summarizing in
  exists w',
    app "agent_data" 1 (PostEndConversation "t9") w = Returned VNone w' /\
    ONGOING_THREADS w' = [("t2", 5%Q)] /\
    supabase w' = Demo.history_t1 /\
    await Demo.agent_data_id Demo.agent_summary_id Demo.agent_summary_thread_id
          1 (make_summary "t9") w'
    = Returned tt w'.
Proof.
  eexists. split; [vm_compute; reflexivity|]. repeat split.
Qed.

(** * Further properties of the code *)

(** ** More on dictionaries *)

Section MoreDicts.

Variable A : Type.
Implicit Types (d : list (string * A)) (k : string).

Lemma dict_get_set_same k (v : A) d : dict_get k (dict_set k v d) = Some v.
Proof.
  induction d as [|[k0 v0] d IH]; simpl.
  - now rewrite String.eqb_refl.
  - destruct (String.eqb k0 k) eqn:Hk; simpl; rewrite Hk; [reflexivity | exact IH].
Qed.

Lemma dict_get_set_other k k' (v : A) d :
  k <> k' -> dict_get k' (dict_set k v d) = dict_get k' d.
Proof.
  intros Hne. induction d as [|[k0 v0] d IH]; simpl.
  - destruct (String.eqb k k') eqn:Hk; [|reflexivity].
    apply String.eqb_eq in Hk. contradiction.
  - destruct (String.eqb k0 k) eqn:Hk; simpl.
    + apply String.eqb_eq in Hk. subst k0.
      destruct (String.eqb k k') eqn:Hk'; [|reflexivity].
      apply String.eqb_eq in Hk'. contradiction.
    + destruct (String.eqb k0 k'); [reflexivity | exact IH].
Qed.

Lemma dict_pop_absent k d : ~ In k (dict_keys d) -> dict_pop k d = d.
Proof.
  induction d as [|[k0 v0] d IH]; simpl; intros Hn; [reflexivity|].
  destruct (String.eqb k0 k) eqn:Hk.
  - apply String.eqb_eq in Hk. subst. exfalso. apply Hn. now left.
  - rewrite IH; [reflexivity|]. intros H. apply Hn. now right.
Qed.

Lemma dict_pop_set_fresh k (v : A) d :
  ~ In k (dict_keys d) -> dict_pop k (dict_set k v d) = d.
Proof.
  induction d as [|[k0 v0] d IH]; simpl; intros Hn.
  - now rewrite String.eqb_refl.
  - destruct (String.eqb k0 k) eqn:Hk.
    + apply String.eqb_eq in Hk. subst. exfalso. apply Hn. now left.
    + simpl. rewrite Hk, IH; [reflexivity|]. intros H. apply Hn. now right.
Qed.

Lemma dict_get_In k (v : A) d :
  dict_get k d = Some v -> exists i, nth_error d i = Some (k, v).
Proof.
  induction d as [|[k0 v0] d IH]; simpl; [discriminate|].
  destruct (String.eqb k0 k) eqn:Hk.
  - intros H. injection H as ->. apply String.eqb_eq in Hk. subst.
    now exists 0%nat.
  - intros H. destruct (IH H) as (i & Hi). now exists (S i).
Qed.

Lemma dict_pop_filter k d :
  NoDup (dict_keys d) ->
  dict_pop k d = filter (fun e => negb (String.eqb (fst e) k)) d.
Proof.
  induction d as [|[k0 v0] d IH]; simpl; intros Hnd; [reflexivity|].
  inversion Hnd as [|? ? Hnotin Hnd']; subst.
  destruct (String.eqb k0 k) eqn:Hk; simpl.
  - apply String.eqb_eq in Hk. subst.
    rewrite <- (dict_pop_absent k d Hnotin) at 1. now apply IH.
  - now rewrite IH.
Qed.

Lemma pop_all_filter (ks : list string) : forall d,
  NoDup (dict_keys d) ->
  pop_all ks d = filter (fun e => negb (existsb (String.eqb (fst e)) ks)) d.
Proof.
  induction ks as [|k ks IH]; intros d Hnd; simpl.
  - induction d as [|e d IHd]; simpl; [reflexivity|].
    inversion Hnd; subst. now rewrite <- IHd.
  - rewrite IH by now apply dict_pop_NoDup.
    rewrite dict_pop_filter by exact Hnd.
    clear. induction d as [|e d IHd]; simpl; [reflexivity|].
    destruct (String.eqb (fst e) k); simpl; rewrite IHd; reflexivity.
Qed.

Lemma dict_pop_length k d : (List.length (dict_pop k d) <= List.length d)%nat.
Proof.
  induction d as [|[k0 v0] d IH]; simpl; [lia|].
  destruct (String.eqb k0 k); simpl; lia.
Qed.

Lemma pop_all_length (ks : list string) : forall d,
  (List.length (pop_all ks d) <= List.length d)%nat.
Proof.
  induction ks as [|k ks IH]; intros d; simpl; [lia|].
  etransitivity; [apply IH | apply dict_pop_length].
Qed.

End MoreDicts.

(** ** More on the idle sweep *)

Section MoreSweep.

Context {E : Type} {X : Externals E}.
Implicit Types (w : World E).

(** X1.  One turn of the sweep leaves in the map exactly the entries whose
    thread was not too old at its reading, in the order they had and with
    the timestamps they had: the map after the turn is the map before it
    filtered by the threads found expired. *)
Theorem sweep_keeps_fresh_entries_in_order w :
  NoDup (dict_keys (ONGOING_THREADS w)) ->
  exists w' expired,
    sweep_cycle w = Returned tt w' /\
    ONGOING_THREADS w'
    = filter (fun entry => negb (existsb (String.eqb (fst entry)) expired))
        (ONGOING_THREADS w) /\
    forall thread_id,
      In thread_id expired <->
      exists i last_message_time,
        nth_error (ONGOING_THREADS w) i = Some (thread_id, last_message_time) /\
        (time_limit_user_message
         < wall_clock (time_calls w + i) - last_message_time)%Q.
Proof.
  intros Hnd.
  destruct (sweep_cycle_spec w) as (w' & Heq & Ho & _).
  exists w', (expired_threads (time_calls w) (ONGOING_THREADS w)).
  split; [exact Heq|]. split.
  - rewrite Ho. now apply pop_all_filter.
  - intros t. apply expired_threads_In.
Qed.

(** X2.  The limit is strict: a thread that is idle for exactly 600 seconds
    when the sweep reads the clock for it stays in the map with its
    timestamp, and no coroutine is created for it. *)
Theorem sweep_keeps_thread_idle_for_the_limit w i thread_id last_message_time :
  NoDup (dict_keys (ONGOING_THREADS w)) ->
  nth_error (ONGOING_THREADS w) i = Some (thread_id, last_message_time) ->
  (wall_clock (time_calls w + i) - last_message_time == 600)%Q ->
  exists w',
    sweep_cycle w = Returned tt w' /\
    dict_get thread_id (ONGOING_THREADS w') = Some last_message_time /\
    count_occ Coroutine_eq_dec (never_awaited w') (make_summary thread_id)
    = count_occ Coroutine_eq_dec (never_awaited w) (make_summary thread_id).
Proof.
  intros Hnd Hi Hidle.
  destruct (sweep_cycle_removes_expired_keeps_fresh w Hnd)
    as (w' & Heq & _ & _ & _ & created & Hn & Hall).
  destruct (Hall i thread_id last_message_time Hi) as (_ & Hfresh).
  destruct Hfresh as (Hget & Hcount).
  { unfold time_limit_user_message. rewrite Hidle. apply Qlt_irrefl. }
  exists w'. split; [exact Heq|]. split; [exact Hget|].
  rewrite Hn, count_occ_app, Hcount. lia.
Qed.

End MoreSweep.

Section Sweeper.

Context {E : Type} {X : Externals E}.
Implicit Types (w : World E).

Lemma pop_all_app (A : Type) (ks1 ks2 : list string) (d : list (string * A)) :
  pop_all (ks1 ++ ks2) d = pop_all ks2 (pop_all ks1 d).
Proof. unfold pop_all. apply fold_left_app. Qed.

Lemma dict_pop_incl (A : Type) (k : string) (d : list (string * A)) entry :
  In entry (dict_pop k d) -> In entry d.
Proof.
  induction d as [|[k0 v0] d IH]; simpl; [tauto|].
  destruct (String.eqb k0 k); simpl; intuition.
Qed.

Lemma pop_all_incl (A : Type) (ks : list string) : forall (d : list (string * A)) entry,
  In entry (pop_all ks d) -> In entry d.
Proof.
  induction ks as [|k ks IH]; intros d entry; simpl; [tauto|].
  intros H. eapply dict_pop_incl. apply IH. exact H.
Qed.

(** X3.  The sweeper, turn after turn: after any number of turns the log has
    gained one sleep of 600 seconds per turn and nothing else, so the
    platform was never called; the store and the platform are what they
    were; the map has gained no entry and changed none: it is the map it
    started from with some threads popped, so each of its entries was
    already there with the same timestamp; coroutines were only created,
    never run, one for each thread popped. *)
Theorem sweeper_only_sleeps cycles : forall w,
  exists w' popped,
    save_finished_threads cycles w = Returned tt w' /\
    log w' = log w ++ repeat (EvSleep 600) cycles /\
    supabase w' = supabase w /\
    project w' = project w /\
    never_awaited w' = never_awaited w ++ map make_summary popped /\
    ONGOING_THREADS w' = pop_all popped (ONGOING_THREADS w) /\
    (forall entry, In entry (ONGOING_THREADS w') -> In entry (ONGOING_THREADS w)) /\
    (List.length (ONGOING_THREADS w') <= List.length (ONGOING_THREADS w))%nat.
Proof.
  induction cycles as [|n IH]; intros w.
  - exists w, []. simpl. rewrite !app_nil_r. repeat split; [tauto | lia].
  - simpl. unfold bind.
    destruct (sweep_cycle_spec w) as (w1 & -> & Ho & Hs & Hp & Hl & _ & Hn).
    destruct (IH w1) as (w' & popped & -> & Hl' & Hs' & Hp' & Hn' & Ho' & _ & _).
    exists w', (expired_threads (time_calls w) (ONGOING_THREADS w) ++ popped).
    split; [reflexivity|].
    split; [rewrite Hl', Hl, <- app_assoc; reflexivity|].
    split; [congruence|]. split; [congruence|].
    split; [rewrite Hn', Hn, map_app, <- app_assoc; reflexivity|].
    assert (Hmap : ONGOING_THREADS w'
                   = pop_all (expired_threads (time_calls w) (ONGOING_THREADS w) ++ popped)
                       (ONGOING_THREADS w))
      by (rewrite pop_all_app, <- Ho; exact Ho').
    split; [exact Hmap|]. rewrite Hmap. split.
    + intros entry. apply pop_all_incl.
    + apply pop_all_length.
Qed.

End Sweeper.

(** ** What a computation leaves untouched *)

Section Frames.

Context {E : Type} {X : Externals E}.
Implicit Types (w : World E).

Lemma chat_rows_added_refl w : chat_rows_added 0 w w.
Proof. exists []. rewrite app_nil_r. repeat split; [simpl; lia | constructor]. Qed.

Lemma chat_rows_added_trans {n m w1 w2 w3} :
  chat_rows_added n w1 w2 -> chat_rows_added m w2 w3 ->
  chat_rows_added (n + m) w1 w3.
Proof.
  intros (r1 & H1 & L1 & F1) (r2 & H2 & L2 & F2). exists (r1 ++ r2).
  rewrite H2, H1, <- app_assoc, length_app. repeat split; [lia|].
  apply Forall_app. now split.
Qed.

Lemma chat_rows_added_le n m w w' :
  (n <= m)%nat -> chat_rows_added n w w' -> chat_rows_added m w w'.
Proof. intros Hle (r & H & L & F). exists r. repeat split; [exact H | lia | exact F]. Qed.

(** run_agent touches the platform and the log only, however it ends. *)
Lemma run_agent_same_process fuel thread_id agent_id w :
  same_process w (outcome_world (run_agent fuel thread_id agent_id w)).
Proof.
  pose proof (run_agent_outcome fuel thread_id agent_id w) as H.
  destruct (run_agent fuel thread_id agent_id w); simpl; [apply H | contradiction | apply H].
Qed.

Lemma run_agent_never_raises fuel thread_id agent_id w exn w' :
  run_agent fuel thread_id agent_id w <> Raised exn w'.
Proof.
  pose proof (run_agent_outcome fuel thread_id agent_id w) as H.
  intros Heq. rewrite Heq in H. exact H.
Qed.

End Frames.

Section ReplyEffect.

Context {E : Type} {X : Externals E}.
Variable agent_data_id : string.
Implicit Types (w : World E).

(** The loop over the messages, for an agent other than the summary agent:
    it returns a reply of the assistant and stores either nothing or the one
    row that carries the text it returns. *)
Lemma latest_assistant_message_data_effect thread_id table_name chatbot_type messages :
  String.eqb chatbot_type "summary" = false ->
  forall w,
  exists message w',
    latest_assistant_message agent_data_id thread_id table_name chatbot_type messages w
    = Returned (assistant_reply agent_data_id thread_id message) w' /\
    same_map w w' /\ project w' = project w /\ log w' = log w /\
    ((supabase w' = supabase w /\
      (message = VStr "No response" \/
       exists text, extract_json text = Some message)) \/
     (exists text,
        message = VStr text /\ extract_json text = None /\
        supabase w'
        = supabase w ++ [(table_name, assistant_row agent_data_id thread_id (VStr text))])).
Proof.
  intros Htype. induction messages as [|m ms IH]; intros w.
  - eexists _, w. split; [reflexivity|]. repeat split. left. split; [reflexivity|].
    now left.
  - simpl. destruct (is_assistant_text m); [|apply IH].
    destruct (extract_json (remove_source (last (text_messages m) ""))) as [j|] eqn:Hj.
    + rewrite Htype. eexists _, w. split; [reflexivity|]. repeat split.
      left. split; [reflexivity|]. right. eexists. exact Hj.
    + unfold bind, supabase_insert, modify, ret.
      eexists _, _. split; [reflexivity|]. repeat split.
      right. eexists. repeat split. exact Hj.
Qed.

End ReplyEffect.

Section MoreReply.

Context {E : Type} {X : Externals E}.
Variable agent_data_id : string.
Implicit Types (w : World E).

(** X4.  insert_chatbot_message without [msg], for any agent type other
    than summary: it always returns a dict {role: assistant, message,
    thread_id, agent_id}, and it stores at most one row.  Either nothing is
    stored, and the message is No response or the structured data parsed
    from the assistant's text; or the one stored row goes to the given table
    and carries the plain text that is returned.  The map, the platform and
    the clock are untouched, and the messages are listed once. *)
Theorem data_reply_stores_what_it_returns thread_id table_name chatbot_type msg w :
  truthy msg = false ->
  String.eqb chatbot_type "summary" = false ->
  exists message w',
    insert_chatbot_message agent_data_id thread_id table_name chatbot_type msg w
    = Returned
        (VDict [("role", VStr "assistant"); ("message", message);
                ("thread_id", VStr thread_id); ("agent_id", VStr agent_data_id)])
        w' /\
    same_map w w' /\ project w' = project w /\
    log w' = log w ++ [EvMessagesList thread_id] /\
    ((supabase w' = supabase w /\
      (message = VStr "No response" \/
       exists text, extract_json text = Some message)) \/
     (exists text,
        message = VStr text /\ extract_json text = None /\
        supabase w'
        = supabase w
          ++ [(table_name,
               VDict [("role", VStr "assistant"); ("thread_id", VStr thread_id);
                      ("message", VStr text); ("agent_id", VStr agent_data_id)])])).
Proof.
  intros Hmsg Htype. unfold insert_chatbot_message. rewrite Hmsg.
  unfold bind, get_message_list.
  destruct (latest_assistant_message_data_effect agent_data_id thread_id table_name
              chatbot_type (rev (messages_list thread_id (project w))) Htype
              (emit (EvMessagesList thread_id) w))
    as (message & w' & Heq & Hmap & Hp & Hl & Hstore).
  exists message, w'. split; [exact Heq|]. repeat split; try apply Hmap; assumption.
Qed.

(** X5.  Structured data is not stored: when [msg] is not given, the agent
    type is not summary and extract_json parses the text of the latest
    assistant message, insert_chatbot_message inserts no row and returns the
    parsed data as the message of its dict. *)
Theorem structured_reply_is_not_stored thread_id table_name chatbot_type msg w
    older message newer data :
  truthy msg = false ->
  String.eqb chatbot_type "summary" = false ->
  messages_list thread_id (project w) = older ++ message :: newer ->
  is_assistant_text message = true ->
  Forall (fun m => is_assistant_text m = false) newer ->
  extract_json (remove_source (last (text_messages message) "")) = Some data ->
  insert_chatbot_message agent_data_id thread_id table_name chatbot_type msg w
  = Returned
      (VDict [("role", VStr "assistant"); ("message", data);
              ("thread_id", VStr thread_id); ("agent_id", VStr agent_data_id)])
      (emit (EvMessagesList thread_id) w) /\
  supabase (emit (EvMessagesList thread_id) w) = supabase w.
Proof.
  intros Hmsg Htype Hlist Hm Hnewer Hjson. split; [|reflexivity].
  unfold insert_chatbot_message. rewrite Hmsg.
  unfold bind, get_message_list. rewrite Hlist.
  rewrite rev_app_distr. simpl rev. rewrite <- app_assoc. simpl app.
  rewrite latest_assistant_message_skips by now apply Forall_rev.
  simpl. rewrite Hm, Hjson, Htype. reflexivity.
Qed.

(** X6.  The summary agent: when [msg] is not given, the agent type is
    summary and extract_json parses the text of the latest assistant
    message, insert_chatbot_message inserts the parsed data itself as the
    row, into the table it was given, and returns None. *)
Theorem summary_is_stored_as_parsed thread_id table_name msg w
    older message newer data :
  truthy msg = false ->
  messages_list thread_id (project w) = older ++ message :: newer ->
  is_assistant_text message = true ->
  Forall (fun m => is_assistant_text m = false) newer ->
  extract_json (remove_source (last (text_messages message) "")) = Some data ->
  exists w',
    insert_chatbot_message agent_data_id thread_id table_name "summary" msg w
    = Returned VNone w' /\
    supabase w' = supabase w ++ [(table_name, data)] /\
    same_map w w' /\ project w' = project w /\
    log w' = log w ++ [EvMessagesList thread_id].
Proof.
  intros Hmsg Hlist Hm Hnewer Hjson.
  unfold insert_chatbot_message. rewrite Hmsg.
  unfold bind, get_message_list. rewrite Hlist.
  rewrite rev_app_distr. simpl rev. rewrite <- app_assoc. simpl app.
  rewrite latest_assistant_message_skips by now apply Forall_rev.
  simpl. rewrite Hm, Hjson. unfold bind, supabase_insert, modify, ret.
  eexists. split; [reflexivity|]. repeat split.
Qed.

(** With [msg] given, insert_chatbot_message looks neither at the table it
    was given nor at the thread's messages: the row {role: assistant,
    thread_id, message: msg[message], agent_id} goes to chatbot_data and the
    result is None.  A [msg] without the key message raises KeyError before
    anything is stored. *)
Lemma given_message_goes_to_chatbot_data thread_id table_name chatbot_type fields w :
  fields <> [] ->
  insert_chatbot_message agent_data_id thread_id table_name chatbot_type (VDict fields) w
  = match dict_get "message" fields with
    | Some message =>
        Returned VNone
          (with_supabase
             (supabase w
              ++ [(Some "chatbot_data",
                   VDict [("role", VStr "assistant"); ("thread_id", VStr thread_id);
                          ("message", message); ("agent_id", VStr agent_data_id)])])
             w)
    | None => Raised "KeyError" w
    end.
Proof.
  intros Hne. unfold insert_chatbot_message.
  destruct fields as [|f fields]; [contradiction|]. cbn [truthy].
  unfold bind, subscript. destruct (dict_get "message" (f :: fields)); reflexivity.
Qed.

End MoreReply.

(** ** More on the handlers *)

Section MoreHandlers.

Context {E : Type} {X : Externals E}.
Variable agent_data_id : string.
Implicit Types (w : World E).

(** The end of chat, from the helper's call on. *)
Lemma chat_tail thread_id reply w :
  (msg <- await_try_to_make_an_appointment
            (assistant_reply agent_data_id thread_id reply) ;;
   new_message <- subscript msg "message" ;;
   old_message <- subscript (assistant_reply agent_data_id thread_id reply) "message" ;;
   if negb (py_eq new_message old_message)
   then insert_chatbot_message agent_data_id thread_id None "data" msg ;;; ret msg
   else ret msg) w
  = after_appointment agent_data_id thread_id reply w.
Proof.
  unfold after_appointment. unfold bind at 1.
  unfold await_try_to_make_an_appointment at 1. cbv zeta.
  destruct (fst (try_to_make_an_appointment
                   (assistant_reply agent_data_id thread_id reply) (project w)))
    as [| | | |l|fields] eqn:Hmsg; try reflexivity.
  destruct (dict_get "message" fields) as [message|] eqn:Hget.
  - assert (Hold : forall w0,
      subscript (assistant_reply agent_data_id thread_id reply) "message" w0
      = Returned reply w0) by reflexivity.
    unfold bind. unfold subscript at 1. rewrite Hget. unfold ret at 1.
    rewrite Hold.
    destruct (py_eq message reply); [reflexivity|]. cbn [negb].
    rewrite given_message_goes_to_chatbot_data, Hget.
    + reflexivity.
    + intros ->. discriminate.
  - unfold bind. unfold subscript at 1. rewrite Hget. reflexivity.
Qed.

(** X7.  POST /chat after a run that did not fail.  The reply extracted by
    insert_chatbot_message is handed to the appointment helper and the
    helper's answer is what the caller gets.  When the answer's message is
    the reply's, nothing more is stored; when it differs, the answer's
    message is stored as one more assistant row of chatbot_data; an answer
    that is not a dict or has no message ends the request with an unhandled
    TypeError or KeyError, after the reply was stored. *)
Theorem chat_returns_the_helper_answer fuel user_input thread_id w w1 run w2 reply w3 :
  chat_prelude agent_data_id user_input thread_id w = Returned thread_id w1 ->
  run_agent fuel thread_id agent_data_id w1 = Returned run w2 ->
  run_status run <> "failed" ->
  insert_chatbot_message agent_data_id thread_id (Some "chatbot_data") "data" VNone w2
  = Returned (assistant_reply agent_data_id thread_id reply) w3 ->
  let chatbot_message := assistant_reply agent_data_id thread_id reply in
  let tried := try_to_make_an_appointment chatbot_message (project w3) in
  let w4 := emit (EvAppointment chatbot_message) (with_project (snd tried) w3) in
  app agent_data_id fuel (PostChat user_input thread_id) w
  = match fst tried with
    | VDict fields =>
        match dict_get "message" fields with
        | Some message =>
            if py_eq message reply then Returned (fst tried) w4
            else
              Returned (fst tried)
                (with_supabase
                   (supabase w4
                    ++ [(Some "chatbot_data",
                         VDict [("role", VStr "assistant"); ("thread_id", VStr thread_id);
                                ("message", message); ("agent_id", VStr agent_data_id)])])
                   w4)
        | None => Raised "KeyError" w4
        end
    | _ => Raised "TypeError" w4
    end.
Proof.
  intros Hpre Hrun Hok Hins chatbot_message tried w4.
  apply String.eqb_neq in Hok.
  unfold app. rewrite chat_split.
  unfold bind at 1. rewrite Hpre. unfold bind at 1. rewrite Hrun, Hok.
  unfold bind at 1. rewrite Hins.
  exact (chat_tail thread_id reply w3).
Qed.

End MoreHandlers.

Section RequestEffect.

Context {E : Type} {X : Externals E}.
Variable agent_data_id : string.
Implicit Types (w : World E).

(** The reply of the data agent, as the handlers ask for it: it is always
    returned, and at most one row of chatbot_data is stored for it. *)
Lemma insert_data_effect thread_id w :
  exists reply w',
    insert_chatbot_message agent_data_id thread_id (Some "chatbot_data") "data" VNone w
    = Returned (assistant_reply agent_data_id thread_id reply) w' /\
    same_map w w' /\
    chat_rows_added 1 w w'.
Proof.
  unfold insert_chatbot_message. cbn [truthy]. unfold bind, get_message_list.
  destruct (latest_assistant_message_data_effect agent_data_id thread_id
              (Some "chatbot_data") "data"
              (rev (messages_list thread_id (project w))) eq_refl
              (emit (EvMessagesList thread_id) w))
    as (reply & w' & Heq & Hmap & _ & _ & Hstore).
  exists reply, w'. split; [exact Heq|]. split; [exact Hmap|].
  destruct Hstore as [(Hs & _)|(text & _ & _ & Hs)].
  - exists []. rewrite app_nil_r. repeat split; [exact Hs | simpl; lia | constructor].
  - eexists. split; [exact Hs|]. split; [simpl; lia|]. repeat constructor.
Qed.

(** The end of chat, whatever the helper answers: at most one more row of
    chatbot_data, and the map is left alone. *)
Lemma after_appointment_effect thread_id reply w :
  same_map w (outcome_world (after_appointment agent_data_id thread_id reply w)) /\
  chat_rows_added 1 w (outcome_world (after_appointment agent_data_id thread_id reply w)).
Proof.
  unfold after_appointment. cbv zeta.
  assert (Hnone : forall w0, chat_rows_added 1 w0 w0)
    by (intros w0; apply chat_rows_added_le with 0%nat; [lia | apply chat_rows_added_refl]).
  destruct (fst (try_to_make_an_appointment _ (project w))) as [|b|z|s|l|fields];
    try (split; [repeat split | exact (Hnone w)]).
  destruct (dict_get "message" fields) as [message|];
    [|split; [repeat split | exact (Hnone w)]].
  destruct (py_eq message reply);
    [split; [repeat split | exact (Hnone w)]|].
  split; [repeat split|].
  eexists. split; [reflexivity|]. split; [simpl; lia|]. repeat constructor.
Qed.

Lemma request_effect_holds fuel request w :
  request_effect agent_data_id request w
    (outcome_world (app agent_data_id fuel request w)).
Proof.
  destruct request as [user_input|user_input thread_id|thread_id]; unfold app.
  - (* POST /start *)
    rewrite give_thread_id_split. unfold bind at 1.
    destruct (start_prelude_returns agent_data_id user_input w)
      as (w1 & -> & Hna & Hshape).
    cbv zeta in Hshape.
    unfold bind at 1.
    pose proof (run_agent_same_process fuel (fst (threads_create (project w))) agent_data_id w1) as Hsame.
    pose proof (@run_agent_never_raises E X fuel (fst (threads_create (project w))) agent_data_id w1) as Hraise.
    assert (Hstop : forall w2, same_process w1 w2 ->
              request_effect agent_data_id (PostStart user_input) w w2).
    { intros w2 (Ho & Hs & _ & Hn).
      split; [cbn; congruence|].
      destruct user_input as [message|]; destruct Hshape as (Hs1 & Ho1 & _).
      - split; [congruence|]. eexists. split; [rewrite Hs, Hs1; reflexivity|].
        split; [repeat constructor|]. exists []. split; [reflexivity | simpl; lia].
      - split; [congruence|]. exists []. rewrite app_nil_r.
        split; [congruence|]. split; [constructor | reflexivity]. }
    destruct (run_agent fuel (fst (threads_create (project w))) agent_data_id w1) as [run w2|exn w2|w2];
      simpl in Hsame; [| exfalso; eapply Hraise; reflexivity | exact (Hstop _ Hsame)].
    destruct user_input as [message|]; [|exact (Hstop _ Hsame)].
    destruct (String.eqb (run_status run) "failed"); [exact (Hstop _ Hsame)|].
    destruct (insert_data_effect (fst (threads_create (project w))) w2) as (reply & w3 & Hins & Hmap & Hrows).
    unfold bind. rewrite Hins. simpl outcome_world.
    destruct Hsame as (Ho & Hs & _ & Hn). destruct Hmap as (Ho3 & _ & Hn3).
    destruct Hshape as (Hs1 & Ho1 & _). destruct Hrows as (rows & Hs3 & Hlen & Hall).
    split; [cbn; congruence|]. split; [cbn; congruence|].
    eexists. split; [rewrite Hs3, Hs, Hs1, <- app_assoc; reflexivity|].
    split; [constructor; [reflexivity | exact Hall]|].
    exists rows. split; [reflexivity | exact Hlen].
  - (* POST /chat *)
    rewrite chat_split. unfold bind at 1.
    destruct (chat_prelude_returns agent_data_id user_input thread_id w)
      as (w1 & -> & Hna & Hs1 & Ho1 & _).
    unfold bind at 1.
    pose proof (run_agent_same_process fuel thread_id agent_data_id w1) as Hsame.
    pose proof (@run_agent_never_raises E X fuel thread_id agent_data_id w1) as Hraise.
    assert (Hstop : forall w2 rest,
              ONGOING_THREADS w2 = ONGOING_THREADS w1 ->
              never_awaited w2 = never_awaited w1 ->
              supabase w2 = supabase w1 ++ rest ->
              (List.length rest <= 2)%nat ->
              Forall (fun tr => fst tr = Some "chatbot_data") rest ->
              request_effect agent_data_id (PostChat user_input thread_id) w w2).
    { intros w2 rest Ho Hn Hs Hlen Hall.
      split; [cbn; congruence|]. split; [cbn; congruence|].
      eexists. split; [rewrite Hs, Hs1, <- app_assoc; reflexivity|].
      split; [constructor; [reflexivity | exact Hall]|].
      exists rest. split; [reflexivity | exact Hlen]. }
    assert (Hstop0 : forall w2, same_process w1 w2 ->
              request_effect agent_data_id (PostChat user_input thread_id) w w2).
    { intros w2 (Ho & Hs & _ & Hn). apply Hstop with (rest := []);
        [exact Ho | exact Hn | now rewrite app_nil_r | simpl; lia | constructor]. }
    destruct (run_agent fuel thread_id agent_data_id w1) as [run w2|exn w2|w2];
      simpl in Hsame; [| exfalso; eapply Hraise; reflexivity | exact (Hstop0 _ Hsame)].
    destruct (String.eqb (run_status run) "failed"); [exact (Hstop0 _ Hsame)|].
    destruct (insert_data_effect thread_id w2) as (reply & w3 & Hins & Hmap & Hrows).
    unfold bind at 1. rewrite Hins.
    rewrite chat_tail.
    destruct (after_appointment_effect thread_id reply w3) as (Hmap4 & Hrows4).
    set (w4 := outcome_world (after_appointment agent_data_id thread_id reply w3)) in *.
    destruct Hsame as (Ho & Hs & _ & Hn). destruct Hmap as (Ho3 & _ & Hn3).
    destruct Hmap4 as (Ho4 & _ & Hn4).
    destruct (chat_rows_added_trans Hrows Hrows4) as (rest & Hs4 & Hlen & Hall).
    apply Hstop with (rest := rest);
      [congruence | congruence | rewrite Hs4, Hs; reflexivity | exact Hlen | exact Hall].
  - (* POST /end_conversation *)
    simpl. split; [reflexivity|]. split; [reflexivity|].
    exists []. rewrite app_nil_r. split; [reflexivity|]. split; [constructor | reflexivity].
Qed.

(** X8.  What a request with a well-formed body does to the process when no
    call to the platform or to the store raises, whichever way it then ends:
    returned, still waiting for a prior run, or stopped by the KeyError or
    TypeError that chat raises on an answer of the appointment helper
    without a message.  The map: POST /start with a
    null message leaves it alone, POST /start with a message and POST /chat
    set the thread's entry to the time read at the request, POST
    /end_conversation pops the thread.  The store only grows, and only in
    chatbot_data: no row for a null start or an ended conversation; the
    user's row and at most one assistant row for a start with a message; the
    user's row and at most two assistant rows for a chat.  No request ever
    writes a summary row, and only ending a conversation creates a
    coroutine. *)
Theorem every_request_effect fuel request w :
  let w' := outcome_world (app agent_data_id fuel request w) in
  never_awaited w'
  = match request with
    | PostEndConversation thread_id => never_awaited w ++ [make_summary thread_id]
    | _ => never_awaited w
    end /\
  ONGOING_THREADS w'
  = match request with
    | PostStart None => ONGOING_THREADS w
    | PostStart (Some _) =>
        dict_set (fst (threads_create (project w))) (wall_clock (time_calls w))
          (ONGOING_THREADS w)
    | PostChat _ thread_id =>
        dict_set thread_id (wall_clock (time_calls w)) (ONGOING_THREADS w)
    | PostEndConversation thread_id => dict_pop thread_id (ONGOING_THREADS w)
    end /\
  exists rows,
    supabase w' = supabase w ++ rows /\
    Forall (fun tr => fst tr = Some "chatbot_data") rows /\
    match request with
    | PostStart None | PostEndConversation _ => rows = []
    | PostStart (Some message) =>
        exists rest,
          rows = (Some "chatbot_data",
                  user_row agent_data_id (fst (threads_create (project w))) message)
                 :: rest /\
          (List.length rest <= 1)%nat
    | PostChat message thread_id =>
        exists rest,
          rows = (Some "chatbot_data", user_row agent_data_id thread_id message) :: rest /\
          (List.length rest <= 2)%nat
    end.
Proof.
  exact (request_effect_holds fuel request w).
Qed.

End RequestEffect.

(** ** Requests and sweeps one after the other *)

Section Sequences.

Context {E : Type} {X : Externals E}.
Variable agent_data_id : string.
Implicit Types (w : World E).

(** X9.  POST /chat sets the entry of its thread before it calls the
    platform or the store (main.py line 197).  So after a POST /chat with a
    well-formed body, whichever way the request then ends, the thread's
    entry in the map holds the time read at the request, every other thread
    has the timestamp it had, and the map still has one entry per thread. *)
Theorem chat_refreshes_its_thread_only fuel message thread_id w :
  NoDup (dict_keys (ONGOING_THREADS w)) ->
  let w' := outcome_world (app agent_data_id fuel (PostChat message thread_id) w) in
  dict_get thread_id (ONGOING_THREADS w') = Some (wall_clock (time_calls w)) /\
  (forall other, other <> thread_id ->
     dict_get other (ONGOING_THREADS w') = dict_get other (ONGOING_THREADS w)) /\
  NoDup (dict_keys (ONGOING_THREADS w')).
Proof.
  intros Hnd w'.
  destruct (request_effect_holds agent_data_id fuel (PostChat message thread_id) w)
    as (_ & Ho & _).
  fold w' in Ho. cbn in Ho. rewrite Ho. split; [apply dict_get_set_same|].
  split; [|now apply dict_set_NoDup].
  intros other Hne. apply dict_get_set_other. congruence.
Qed.

(** X10.  A conversation started with a message and ended at once: when the
    new thread was not in the map before, the map after POST /start and
    POST /end_conversation is the map before them. *)
Theorem start_then_end_restores_the_map fuel fuel' message w :
  let thread := fst (threads_create (project w)) in
  ~ In thread (dict_keys (ONGOING_THREADS w)) ->
  let w1 := outcome_world (app agent_data_id fuel (PostStart (Some message)) w) in
  let w2 := outcome_world (app agent_data_id fuel' (PostEndConversation thread) w1) in
  ONGOING_THREADS w2 = ONGOING_THREADS w.
Proof.
  intros thread Hfresh w1 w2.
  destruct (request_effect_holds agent_data_id fuel (PostStart (Some message)) w)
    as (_ & Ho1 & _).
  destruct (request_effect_holds agent_data_id fuel' (PostEndConversation thread) w1)
    as (_ & Ho2 & _).
  fold w1 in Ho1. fold w2 in Ho2. rewrite Ho2, Ho1.
  now apply dict_pop_set_fresh.
Qed.

(** X11.  Ending a conversation whose thread is not in the map leaves the
    map as it is; the request still returns, without raising (the pop has a
    default). *)
Theorem end_of_unknown_conversation_is_harmless fuel thread_id w :
  ~ In thread_id (dict_keys (ONGOING_THREADS w)) ->
  exists w',
    app agent_data_id fuel (PostEndConversation thread_id) w = Returned VNone w' /\
    ONGOING_THREADS w' = ONGOING_THREADS w /\
    supabase w' = supabase w /\ project w' = project w /\ log w' = log w.
Proof.
  intros Habsent. eexists. split; [reflexivity|]. simpl.
  split; [now apply dict_pop_absent|]. repeat split.
Qed.

(** X12.  A thread that has just chatted survives the next turn of the
    sweep: when every reading of the clock during that turn is at most 600
    seconds after the reading of the chat request, the thread is still in
    the map after the turn, with the time of the chat. *)
Theorem sweep_keeps_a_thread_that_just_chatted fuel message thread_id w :
  NoDup (dict_keys (ONGOING_THREADS w)) ->
  let w1 := outcome_world (app agent_data_id fuel (PostChat message thread_id) w) in
  (forall j, (j < List.length (ONGOING_THREADS w1))%nat ->
     (wall_clock (time_calls w1 + j) - wall_clock (time_calls w) <= 600)%Q) ->
  exists w2,
    sweep_cycle w1 = Returned tt w2 /\
    dict_get thread_id (ONGOING_THREADS w2) = Some (wall_clock (time_calls w)).
Proof.
  intros Hnd w1 Hrecent.
  destruct (request_effect_holds agent_data_id fuel (PostChat message thread_id) w)
    as (_ & Ho & _).
  fold w1 in Ho.
  assert (Hnd1 : NoDup (dict_keys (ONGOING_THREADS w1)))
    by (rewrite Ho; now apply dict_set_NoDup).
  assert (Hget : dict_get thread_id (ONGOING_THREADS w1)
                 = Some (wall_clock (time_calls w)))
    by (rewrite Ho; apply dict_get_set_same).
  destruct (@dict_get_In _ _ _ _ Hget) as (i & Hi).
  destruct (sweep_cycle_removes_expired_keeps_fresh w1 Hnd1)
    as (w2 & Heq & _ & _ & _ & created & _ & Hall).
  destruct (Hall i thread_id _ Hi) as (_ & Hfresh).
  exists w2. split; [exact Heq|]. apply Hfresh.
  apply Qle_not_lt. unfold time_limit_user_message. apply Hrecent.
  apply nth_error_Some. congruence.
Qed.

End Sequences.

(** ** More on the run-wait loop *)

Section MoreRunWait.

Context {E : Type} {X : Externals E}.
Implicit Types (w : World E).

(** The loop when the first answer outside the set is the [k]-th: it has
    polled [k] times in vain, slept after each of these polls, and returns
    the run of the next poll. *)
Lemma wait_for_latest_run_exact k thread_id : forall fuel latest_run w,
  (k < fuel)%nat ->
  (forall j, (j < k)%nat ->
     in_progress_or_queued
       (run_status (nth_poll j thread_id (run_id latest_run) (project w))) = true) ->
  in_progress_or_queued
    (run_status (nth_poll k thread_id (run_id latest_run) (project w))) = false ->
  exists w' polls rid,
    wait_for_latest_run fuel thread_id latest_run w
    = Returned (nth_poll k thread_id (run_id latest_run) (project w)) w' /\
    busy_wait thread_id polls /\
    List.length polls = (2 * k)%nat /\
    log w'
    = log w ++ polls
      ++ [EvRunGet thread_id rid
            (run_status (nth_poll k thread_id (run_id latest_run) (project w)))].
Proof.
  induction k as [|k IH]; intros fuel r w Hlt Hbusy Hdone;
    (destruct fuel as [|fuel]; [lia|]);
    simpl; unfold bind at 1; unfold project_runs_get at 1.
  - simpl in Hdone.
    destruct (runs_get thread_id (run_id r) (project w)) as [run e'] eqn:Hget.
    cbn [fst snd]. rewrite Hdone.
    eexists _, [], _. split; [reflexivity|]. split; [constructor|].
    split; reflexivity.
  - pose proof (Hbusy 0%nat ltac:(lia)) as H0. simpl in H0, Hdone.
    destruct (runs_get thread_id (run_id r) (project w)) as [run e'] eqn:Hget.
    cbn [fst snd]. rewrite H0. unfold bind at 1. unfold asyncio_sleep, modify.
    destruct (IH fuel run
                (emit (EvSleep (1 # 2))
                   (emit (EvRunGet thread_id (run_id r) (run_status run))
                      (with_project e' w))))
      as (w' & polls & rid & Heq & Hbw & Hlen & Hlog);
      [lia | | exact Hdone |].
    { intros j Hj. specialize (Hbusy (S j) ltac:(lia)).
      simpl in Hbusy. rewrite Hget in Hbusy. exact Hbusy. }
    exists w', (EvRunGet thread_id (run_id r) (run_status run) :: EvSleep (1 # 2) :: polls), rid.
    split; [exact Heq|]. split; [now constructor|]. split; [simpl; lia|].
    rewrite Hlog. simpl. rewrite <- !app_assoc. reflexivity.
Qed.

(** X13.  A thread without prior runs: run_agent neither polls nor sleeps.
    Whatever the fuel, it returns the run that create_and_process returns,
    and the log gains the listing and the creation, nothing else. *)
Theorem run_agent_without_prior_run fuel thread_id agent_id w :
  runs_list thread_id (project w) = [] ->
  let created := runs_create_and_process thread_id agent_id (project w) in
  exists w',
    run_agent fuel thread_id agent_id w = Returned (fst created) w' /\
    project w' = snd created /\
    log w'
    = log w ++ [EvRunsList thread_id;
                EvRunCreateAndProcess thread_id agent_id (run_status (fst created))] /\
    same_process w w'.
Proof.
  intros Hnone created. unfold run_agent, bind, project_runs_list. rewrite Hnone.
  unfold ret, project_runs_create_and_process. cbv zeta.
  eexists. split; [reflexivity|]. simpl. rewrite <- app_assoc.
  repeat split.
Qed.

(** X14.  The length of the wait.  When the first poll of the prior run
    that answers a status outside {in_progress, queued} is poll number [k]
    (counting from 0), run_agent returns for every fuel above [k], and the
    log of the call is the listing, exactly [k] polls that found the run
    busy, each followed by a sleep of half a second, the poll that found it
    settled, and the creation of the new run: the caller has slept [k]
    times. *)
Theorem run_agent_sleeps_once_per_busy_poll k fuel thread_id agent_id w latest_run rest :
  runs_list thread_id (project w) = latest_run :: rest ->
  (k < fuel)%nat ->
  (forall j, (j < k)%nat ->
     in_progress_or_queued
       (run_status (nth_poll j thread_id (run_id latest_run) (project w))) = true) ->
  in_progress_or_queued
    (run_status (nth_poll k thread_id (run_id latest_run) (project w))) = false ->
  exists run w' polls rid,
    run_agent fuel thread_id agent_id w = Returned run w' /\
    busy_wait thread_id polls /\
    List.length polls = (2 * k)%nat /\
    log w'
    = log w ++ [EvRunsList thread_id] ++ polls
      ++ [EvRunGet thread_id rid
            (run_status (nth_poll k thread_id (run_id latest_run) (project w)));
          EvRunCreateAndProcess thread_id agent_id (run_status run)].
Proof.
  intros Hruns Hlt Hbusy Hdone.
  destruct (@wait_for_latest_run_exact k thread_id fuel latest_run
              (emit (EvRunsList thread_id) w) Hlt Hbusy Hdone)
    as (w1 & polls & rid & Hwait & Hbw & Hlen & Hlog).
  destruct (create_and_process_returns thread_id agent_id w1)
    as (run & w' & Hc & _ & _ & Hl).
  exists run, w', polls, rid.
  split; [|split; [exact Hbw|split; [exact Hlen|]]].
  - unfold run_agent. unfold bind at 1. unfold project_runs_list at 1.
    rewrite Hruns. unfold bind. rewrite Hwait. unfold ret. rewrite Hc. reflexivity.
  - rewrite Hl, Hlog. simpl. rewrite <- !app_assoc. reflexivity.
Qed.

End MoreRunWait.

(** ** More on make_summary *)

Section MoreSummary.

Context {E : Type} {X : Externals E}.
Variables agent_data_id agent_summary_id agent_summary_thread_id : string.
Implicit Types (w : World E).

Lemma py_eq_str (v : value) (s : string) : py_eq v (VStr s) = true -> v = VStr s.
Proof.
  destruct v; simpl; try discriminate. intros H. apply String.eqb_eq in H. now subst.
Qed.

Lemma conversation_not_empty (row : value * value) (rows : list (value * value)) :
  String.eqb
    (String.concat ""
       (map (fun r => (py_str (fst r) ++ ": " ++ py_str (snd r) ++ newline)%string)
            (row :: rows)))
    ""
  = false.
Proof.
  apply String.eqb_neq. simpl.
  destruct (map _ rows); destruct (py_str (fst row)); discriminate.
Qed.

(** X15.  The body of make_summary counts as history only the rows of
    chatbot_data that carry the thread id it was given: when the store has
    no such row (whatever else it holds, rows of other threads and summary
    rows included), awaiting the coroutine posts nothing, runs no agent and
    stores nothing. *)
Theorem summary_of_thread_without_rows_is_skipped fuel thread_id w :
  (forall row,
     In (Some "chatbot_data", row) (supabase w) ->
     row_field "thread_id" row <> VStr thread_id) ->
  await agent_data_id agent_summary_id agent_summary_thread_id
        fuel (make_summary thread_id) w
  = Returned tt w.
Proof.
  intros Hnone. simpl. apply make_summary_body_empty_history.
  unfold supabase_select_conversation, gets. f_equal.
  induction (supabase w) as [|[table row] rows IH]; [reflexivity|].
  simpl.
  assert (Hrest : forall row0, In (Some "chatbot_data", row0) rows ->
                    row_field "thread_id" row0 <> VStr thread_id)
    by (intros row0 Hin; apply Hnone; now right).
  destruct table as [table|]; [|exact (IH Hrest)].
  destruct (String.eqb table "chatbot_data") eqn:Htable; [|exact (IH Hrest)].
  apply String.eqb_eq in Htable. subst table.
  destruct (py_eq (row_field "thread_id" row) (VStr thread_id)) eqn:Hthread.
  - apply py_eq_str in Hthread. exfalso. eapply Hnone; [now left | exact Hthread].
  - exact (IH Hrest).
Qed.

(** X16.  The body of make_summary on a thread with persisted rows, once
    awaited.  The rows are posted to the summary thread as one message, one
    line [role: message] per row in the order of the store, and the summary
    agent is run on that thread.  The status of the run is not looked at:
    whatever it is, when the text of the latest assistant message of the
    summary thread parses as JSON, the parsed data is stored as one row of
    hands_summary_data, and chatbot_data gets nothing. *)
Theorem awaited_summary_stores_the_parsed_answer fuel thread_id w row rows
    w1 run w2 older message newer data :
  supabase_select_conversation thread_id agent_data_id w = Returned (row :: rows) w ->
  let conversation :=
    String.concat ""
      (map (fun r => (py_str (fst r) ++ ": " ++ py_str (snd r) ++ newline)%string)
           (row :: rows)) in
  make_message agent_summary_thread_id "user" conversation w = Returned tt w1 ->
  run_agent fuel agent_summary_thread_id agent_summary_id w1 = Returned run w2 ->
  messages_list agent_summary_thread_id (project w2) = older ++ message :: newer ->
  is_assistant_text message = true ->
  Forall (fun m => is_assistant_text m = false) newer ->
  extract_json (remove_source (last (text_messages message) "")) = Some data ->
  exists w3,
    await agent_data_id agent_summary_id agent_summary_thread_id
          fuel (make_summary thread_id) w
    = Returned tt w3 /\
    supabase w3 = supabase w ++ [(Some "hands_summary_data", data)] /\
    ONGOING_THREADS w3 = ONGOING_THREADS w /\
    In (EvMessageCreate agent_summary_thread_id "user" conversation) (log w3) /\
    In (EvRunCreateAndProcess agent_summary_thread_id agent_summary_id (run_status run))
       (log w3).
Proof.
  intros Hsel conversation Hpost Hrun Hlist Hm Hnewer Hjson.
  assert (Hw1 : supabase w1 = supabase w /\ ONGOING_THREADS w1 = ONGOING_THREADS w /\
                log w1 = log w ++ [EvMessageCreate agent_summary_thread_id "user" conversation]).
  { unfold make_message, modify in Hpost. injection Hpost as <-. repeat split. }
  destruct Hw1 as (Hs1 & Ho1 & Hl1).
  destruct (run_agent_creates_one Hrun) as ((Ho2 & Hs2 & _) & _ & waited & Hl2).
  simpl await. unfold make_summary_body. unfold bind at 1. rewrite Hsel. cbv zeta.
  pose proof (conversation_not_empty row rows) as Hne. fold conversation in Hne.
  fold conversation. rewrite Hne. cbn [negb].
  unfold bind at 1. rewrite Hpost. unfold bind at 1. rewrite Hrun.
  unfold bind at 1. unfold insert_chatbot_message. cbn [truthy].
  unfold bind at 1. unfold get_message_list at 1. rewrite Hlist.
  rewrite rev_app_distr. simpl rev. rewrite <- app_assoc. simpl app.
  rewrite latest_assistant_message_skips by now apply Forall_rev.
  simpl. rewrite Hm, Hjson. unfold bind, supabase_insert, modify, ret.
  eexists. split; [reflexivity|]. simpl.
  split; [congruence|]. split; [congruence|].
  rewrite Hl2, Hl1. split.
  - apply in_or_app. left. apply in_or_app. left. apply in_or_app. right. now left.
  - apply in_or_app. left. apply in_or_app. right. right.
    apply in_or_app. right. now left.
Qed.

End MoreSummary.

(** ** The further properties on the small platform *)

Ltac distinct_keys :=
  repeat (constructor; [simpl; intuition discriminate|]); constructor.

Lemma sweep_keeps_fresh_entries_in_order_witness :
  exists w' expired,
    sweep_cycle (Demo.world [("t1", 0%Q); ("t2", 900%Q)] [] Demo.fresh) = Returned tt w' /\
    ONGOING_THREADS w'
    = filter (fun entry => negb (existsb (String.eqb (fst entry)) expired))
        [("t1", 0%Q); ("t2", 900%Q)] /\
    forall thread_id,
      In thread_id expired <->
      exists i last_message_time,
        nth_error [("t1", 0%Q); ("t2", 900%Q)] i = Some (thread_id, last_message_time) /\
        (time_limit_user_message < 1000 - last_message_time)%Q.
Proof.
  apply (@sweep_keeps_fresh_entries_in_order Demo.Platform Demo.demo_externals
           (Demo.world [("t1", 0%Q); ("t2", 900%Q)] [] Demo.fresh)).
  distinct_keys.
Defined.

Lemma sweep_keeps_thread_idle_for_the_limit_witness :
  exists w',
    sweep_cycle (Demo.world [("t0", 0%Q); ("t1", 400%Q)] [] Demo.fresh) = Returned tt w' /\
    dict_get "t1" (ONGOING_THREADS w') = Some 400%Q /\
    count_occ Coroutine_eq_dec (never_awaited w') (make_summary "t1")
    = count_occ Coroutine_eq_dec [] (make_summary "t1").
Proof.
  apply (@sweep_keeps_thread_idle_for_the_limit Demo.Platform Demo.demo_externals
           (Demo.world [("t0", 0%Q); ("t1", 400%Q)] [] Demo.fresh) 1 "t1" 400%Q).
  - distinct_keys.
  - reflexivity.
  - vm_compute. reflexivity.
Defined.

(** Three turns of the sweeper over two idle threads. *)
Example sweeper_three_turns :
  exists w',
    save_finished_threads 3 (Demo.world [("t1", 0%Q); ("t2", 5%Q)] Demo.history_t1 Demo.fresh)
    = Returned tt w' /\
    log w' = [EvSleep 600; EvSleep 600; EvSleep 600] /\
    supabase w' = Demo.history_t1 /\
    ONGOING_THREADS w' = [] /\
    never_awaited w' = [make_summary "t1"; make_summary "t2"].
Proof. eexists. split; [vm_compute; reflexivity|]. repeat split. Qed.

Lemma data_reply_stores_what_it_returns_witness :
  exists message w',
    insert_chatbot_message "agent_data" "t1" (Some "chatbot_data") "data" VNone
      (Demo.world [] [] Demo.answered)
    = Returned
        (VDict [("role", VStr "assistant"); ("message", message);
                ("thread_id", VStr "t1"); ("agent_id", VStr "agent_data")])
        w'.
Proof.
  destruct (@data_reply_stores_what_it_returns Demo.Platform Demo.demo_externals
              "agent_data" "t1" (Some "chatbot_data") "data" VNone
              (Demo.world [] [] Demo.answered) eq_refl eq_refl)
    as (message & w' & H & _).
  exists message, w'. exact H.
Defined.

Lemma structured_reply_is_not_stored_witness :
  insert_chatbot_message "agent_data" "t1" (Some "chatbot_data") "data" VNone
    (Demo.world [] Demo.history_t1 Booking.json_answered)
  = Returned
      (VDict [("role", VStr "assistant");
              ("message", VDict [("summary", VStr "{dag: maandag}")]);
              ("thread_id", VStr "t1"); ("agent_id", VStr "agent_data")])
      (emit (EvMessagesList "t1") (Demo.world [] Demo.history_t1 Booking.json_answered)) /\
  supabase (emit (EvMessagesList "t1") (Demo.world [] Demo.history_t1 Booking.json_answered))
  = Demo.history_t1.
Proof.
  refine (@structured_reply_is_not_stored Demo.Platform Demo.demo_externals
            "agent_data" "t1" (Some "chatbot_data") "data" VNone
            (Demo.world [] Demo.history_t1 Booking.json_answered)
            [mkMessage "user" ["boek maandag"]]
            (mkMessage "assistant" ["{dag: maandag}"]) []
            (VDict [("summary", VStr "{dag: maandag}")])
            _ _ _ _ _ _);
    try reflexivity.
  constructor.
Defined.

Lemma summary_is_stored_as_parsed_witness :
  exists w',
    insert_chatbot_message "agent_data" "t1" (Some "hands_summary_data") "summary" VNone
      (Demo.world [] Demo.history_t1 Booking.json_answered)
    = Returned VNone w' /\
    supabase w'
    = Demo.history_t1
      ++ [(Some "hands_summary_data", VDict [("summary", VStr "{dag: maandag}")])].
Proof.
  destruct (@summary_is_stored_as_parsed Demo.Platform Demo.demo_externals
              "agent_data" "t1" (Some "hands_summary_data") VNone
              (Demo.world [] Demo.history_t1 Booking.json_answered)
              [mkMessage "user" ["boek maandag"]]
              (mkMessage "assistant" ["{dag: maandag}"]) []
              (VDict [("summary", VStr "{dag: maandag}")])
              eq_refl eq_refl eq_refl (Forall_nil _) eq_refl)
    as (w' & H & Hs & _).
  exists w'. split; [exact H | exact Hs].
Defined.

(** The agent answers with structured data and the helper answers with a
    confirmation: POST /chat returns the confirmation and stores it after
    the user's row; the structured reply itself is not stored. *)
Lemma chat_returns_the_helper_answer_witness :
  exists w1 run w2 reply w3 w5,
    @chat_prelude _ Booking.booking_externals "agent_data" "boek maandag" "t1"
      (Demo.world [] [] Demo.summarizing)
    = Returned "t1" w1 /\
    @run_agent _ Booking.booking_externals 1 "t1" "agent_data" w1 = Returned run w2 /\
    run_status run <> "failed" /\
    @insert_chatbot_message _ Booking.booking_externals "agent_data" "t1"
      (Some "chatbot_data") "data" VNone w2
    = Returned (assistant_reply "agent_data" "t1" reply) w3 /\
    @app _ Booking.booking_externals "agent_data" 1 (PostChat "boek maandag" "t1")
      (Demo.world [] [] Demo.summarizing)
    = Returned
        (VDict [("role", VStr "assistant"); ("message", VStr "Afspraak bevestigd")])
        w5 /\
    supabase w5
    = [(Some "chatbot_data", user_row "agent_data" "t1" "boek maandag");
       (Some "chatbot_data", assistant_row "agent_data" "t1" (VStr "Afspraak bevestigd"))].
Proof.
  eexists _, _, _, _, _, _.
  split; [vm_compute; reflexivity|]. split; [vm_compute; reflexivity|].
  split; [vm_compute; discriminate|]. split; [vm_compute; reflexivity|].
  split.
  - etransitivity.
    + refine (@chat_returns_the_helper_answer Demo.Platform Booking.booking_externals
                "agent_data" 1 "boek maandag" "t1" (Demo.world [] [] Demo.summarizing)
                _ _ _ _ _ _ _ _ _);
        [vm_compute; reflexivity | vm_compute; reflexivity | vm_compute; discriminate
        | vm_compute; reflexivity].
    + vm_compute. reflexivity.
  - reflexivity.
Defined.

(** The helper answers without a message: the request ends with KeyError,
    after the assistant's row was stored. *)
Example chat_helper_without_message :
  exists w',
    @app _ Booking.silent_externals "agent_data" 1 (PostChat "hoi" "t1")
      (Demo.world [] [] Demo.fresh)
    = Raised "KeyError" w' /\
    supabase w'
    = [(Some "chatbot_data", user_row "agent_data" "t1" "hoi");
       (Some "chatbot_data", assistant_row "agent_data" "t1" (VStr "Hallo!"))].
Proof. eexists. split; [vm_compute; reflexivity|]. reflexivity. Qed.

Lemma chat_refreshes_its_thread_only_witness :
  let w := Demo.world [("t0", 5%Q); ("t1", 7%Q)] [] Demo.stuck in
  let w' := outcome_world (app "agent_data" 2 (PostChat "hoi" "t1") w) in
  dict_get "t1" (ONGOING_THREADS w') = Some 1000%Q /\
  (forall other, other <> "t1" ->
     dict_get other (ONGOING_THREADS w') = dict_get other (ONGOING_THREADS w)) /\
  NoDup (dict_keys (ONGOING_THREADS w')).
Proof.
  apply (@chat_refreshes_its_thread_only Demo.Platform Demo.demo_externals
           "agent_data" 2 "hoi" "t1"
           (Demo.world [("t0", 5%Q); ("t1", 7%Q)] [] Demo.stuck)).
  distinct_keys.
Defined.

Lemma start_then_end_restores_the_map_witness :
  let w := Demo.world [("t0", 5%Q)] [] Demo.fresh in
  let w1 := outcome_world (app "agent_data" 1 (PostStart (Some "hoi")) w) in
  let w2 := outcome_world (app "agent_data" 1 (PostEndConversation "thread_new") w1) in
  ONGOING_THREADS w2 = [("t0", 5%Q)].
Proof.
  apply (@start_then_end_restores_the_map Demo.Platform Demo.demo_externals
           "agent_data" 1 1 "hoi" (Demo.world [("t0", 5%Q)] [] Demo.fresh)).
  simpl. intuition discriminate.
Defined.

Lemma end_of_unknown_conversation_is_harmless_witness :
  exists w',
    app "agent_data" 1 (PostEndConversation "t9")
      (Demo.world [("t0", 5%Q)] Demo.history_t1 Demo.fresh)
    = Returned VNone w' /\
    ONGOING_THREADS w' = [("t0", 5%Q)] /\
    supabase w' = Demo.history_t1 /\ project w' = Demo.fresh /\ log w' = [].
Proof.
  apply (@end_of_unknown_conversation_is_harmless Demo.Platform Demo.demo_externals
           "agent_data" 1 "t9" (Demo.world [("t0", 5%Q)] Demo.history_t1 Demo.fresh)).
  simpl. intuition discriminate.
Defined.

Lemma sweep_keeps_a_thread_that_just_chatted_witness :
  let w := Demo.world [("t0", 0%Q)] [] Demo.fresh in
  let w1 := outcome_world (app "agent_data" 1 (PostChat "hoi" "t1") w) in
  exists w2,
    sweep_cycle w1 = Returned tt w2 /\
    dict_get "t1" (ONGOING_THREADS w2) = Some 1000%Q.
Proof.
  apply (@sweep_keeps_a_thread_that_just_chatted Demo.Platform Demo.demo_externals
           "agent_data" 1 "hoi" "t1" (Demo.world [("t0", 0%Q)] [] Demo.fresh)).
  - distinct_keys.
  - intros j _. vm_compute. discriminate.
Defined.

(** On a clock that advances: t0 was last heard of at time 0, t1 chats at
    time 1000, and the sweep that follows reads 1001 and 1002: t0 goes, t1
    stays. *)
Example chat_then_sweep_on_ticking_clock :
  exists w2,
    @sweep_cycle _ Booking.ticking_externals
      (outcome_world
         (@app _ Booking.ticking_externals "agent_data" 1 (PostChat "hoi" "t1")
            (Demo.world [("t0", 0%Q)] [] Demo.fresh)))
    = Returned tt w2 /\
    ONGOING_THREADS w2 = [("t1", (1000 + inject_Z 0)%Q)] /\
    never_awaited w2 = [make_summary "t0"].
Proof. eexists. split; [vm_compute; reflexivity|]. split; reflexivity. Qed.

Lemma run_agent_without_prior_run_witness :
  exists w',
    run_agent 0 "t1" "agent_data" (Demo.world [] [] Demo.fresh)
    = Returned (mkRun "run_new" "completed" "rate_limit_exceeded") w' /\
    log w' = [EvRunsList "t1"; EvRunCreateAndProcess "t1" "agent_data" "completed"].
Proof.
  destruct (@run_agent_without_prior_run Demo.Platform Demo.demo_externals
              0 "t1" "agent_data" (Demo.world [] [] Demo.fresh) eq_refl)
    as (w' & H & _ & Hl & _).
  exists w'. split; [exact H | exact Hl].
Defined.

Lemma run_agent_sleeps_once_per_busy_poll_witness :
  exists run w' polls rid,
    run_agent 3 "t1" "agent_data" (Demo.world [] [] Demo.busy) = Returned run w' /\
    busy_wait "t1" polls /\
    List.length polls = 4%nat /\
    log w'
    = [EvRunsList "t1"] ++ polls
      ++ [EvRunGet "t1" rid "completed";
          EvRunCreateAndProcess "t1" "agent_data" (run_status run)].
Proof.
  apply (@run_agent_sleeps_once_per_busy_poll Demo.Platform Demo.demo_externals
           2 3 "t1" "agent_data" (Demo.world [] [] Demo.busy)
           (mkRun "run_old" "in_progress" "") []).
  - reflexivity.
  - lia.
  - intros j Hj. destruct j as [|[|j]]; [reflexivity | reflexivity | lia].
  - reflexivity.
Defined.

Lemma summary_of_thread_without_rows_is_skipped_witness :
  await "agent_data" "agent_summary" "thread_summary" 1 (make_summary "t9")
    (Demo.world [] Demo.history_t1 Demo.summarizing)
  = Returned tt (Demo.world [] Demo.history_t1 Demo.summarizing).
Proof.
  apply (@summary_of_thread_without_rows_is_skipped Demo.Platform Demo.demo_externals
           "agent_data" "agent_summary" "thread_summary" 1 "t9"
           (Demo.world [] Demo.history_t1 Demo.summarizing)).
  intros row [Hin|[]]. injection Hin as <-. discriminate.
Defined.

(** The summary agent's run fails and leaves no new message: the summary
    stored is the one the summary thread already held. *)
Lemma awaited_summary_stores_the_parsed_answer_witness :
  let stale :=
    Demo.mkPlatform [] (Some 0%nat) "failed" []
      [("thread_summary", mkMessage "assistant" ["{samenvatting van een ander gesprek}"])] in
  exists w1 run w2,
    make_message "thread_summary" "user"
      (String.concat ""
         (map (fun r => (py_str (fst r) ++ ": " ++ py_str (snd r) ++ newline)%string)
              [(VStr "user", VStr "Ik wil een afspraak")]))
      (Demo.world [] Demo.history_t1 stale)
    = Returned tt w1 /\
    run_agent 1 "thread_summary" "agent_summary" w1 = Returned run w2 /\
    run_status run = "failed" /\
    exists w3,
      await "agent_data" "agent_summary" "thread_summary" 1 (make_summary "t1")
        (Demo.world [] Demo.history_t1 stale)
      = Returned tt w3 /\
      supabase w3
      = Demo.history_t1
        ++ [(Some "hands_summary_data",
             VDict [("summary", VStr "{samenvatting van een ander gesprek}")])].
Proof.
  intros stale. eexists _, _, _.
  split; [vm_compute; reflexivity|]. split; [vm_compute; reflexivity|].
  split; [vm_compute; reflexivity|].
  refine (match @awaited_summary_stores_the_parsed_answer
                  Demo.Platform Demo.demo_externals
                  "agent_data" "agent_summary" "thread_summary" 1 "t1"
                  (Demo.world [] Demo.history_t1 stale)
                  (VStr "user", VStr "Ik wil een afspraak") []
                  _ _ _
                  []
                  (mkMessage "assistant" ["{samenvatting van een ander gesprek}"])
                  [mkMessage "user"
                     [String.concat ""
                        (map (fun r => (py_str (fst r) ++ ": " ++ py_str (snd r)
                                        ++ newline)%string)
                             [(VStr "user", VStr "Ik wil een afspraak")])]]
                  (VDict [("summary", VStr "{samenvatting van een ander gesprek}")])
                  _ _ _ _ _ _ _
          with
          | ex_intro _ w3 (conj Hawait (conj Hstore _)) =>
              ex_intro _ w3 (conj Hawait Hstore)
          end).
  all: try (vm_compute; reflexivity).
  repeat constructor.
Defined.

(** * POST /start and the wait on a prior run *)

Section WaitEnds.

Context {E : Type} {X : Externals E}.
Implicit Types (w : World E).




End WaitEnds.

Section StartClaims.

Context {E : Type} {X : Externals E}.
Variable agent_data_id : string.
Implicit Types (w : World E).





End StartClaims.

(** ** The claims on platforms with prior runs *)




(** POST /start on the platform whose prior run settles at its third poll:
    pending with fuel 2, returned with fuel 3. *)
Example start_waits_then_returns :
  (exists w',
     app "agent_data" 2 (PostStart None) (Demo.world [] [] Demo.busy) = Pending w' /\
     runs_created (log w') = 0%nat) /\
  (exists w',
     app "agent_data" 3 (PostStart None) (Demo.world [] [] Demo.busy)
     = Returned (VDict [("thread_id", VStr "thread_new")]) w' /\
     runs_created (log w') = 1%nat).
Proof. split; eexists; (split; [vm_compute; reflexivity|]); reflexivity. Qed.
